(** * S3todatabase: the CSV pipeline of [main.py]

    A shallow embedding of [main.py] and the properties of its
    specification.  The program uploads a CSV file to object storage,
    fetches it back, rewrites two date columns, uploads the result and
    bulk-loads it into a PostgreSQL table.

    Conventions of the embedding:
    - a Python [str] is a [string]; its characters are the code points
      below 256, among which the decimal digits are exactly "0".."9";
    - Python integers are [Z];
    - exceptions are the instances of [Exception]; the asynchronous
      signals deriving from [BaseException] only are outside the model;
    - a statement is a function from the program state to an outcome and
      a new state; the state holds the outside world, the records sent to
      the log file and the calls made to the libraries. *)

From Stdlib Require Import String Ascii ZArith List Bool Lia.
From stdpp Require Import base option gmap strings.

Import ListNotations.
Local Open Scope string_scope.
Local Open Scope Z_scope.
Local Open Scope list_scope.

(* ===================================================================== *)
(** ** Python values, exceptions and log records *)
(* ===================================================================== *)

(** A float is NaN, an infinity, or the dyadic number [m * 2^e]. *)
Inductive pyfloat : Type :=
| FNaN
| FInf (negative : bool)
| FNum (m e : Z).

(** The values a cell of a data frame can hold after [pd.read_csv], and
    the result [None] of a failed conversion. *)
Inductive pyval : Type :=
| PyNone
| PyBool (b : bool)
| PyInt (n : Z)
| PyFloat (x : pyfloat)
| PyStr (s : string).

(** [type(v).__name__] *)
Definition type_name (v : pyval) : string :=
  match v with
  | PyNone => "NoneType"
  | PyBool _ => "bool"
  | PyInt _ => "int"
  | PyFloat _ => "float"
  | PyStr _ => "str"
  end.

(** [isinstance(v, str)] *)
Definition is_str (v : pyval) : bool :=
  match v with
  | PyStr _ => true
  | _ => false
  end.

(** Exceptions, by class and by what their message is built from. *)
Inductive exn : Type :=
| ValueError_no_match (data format : string)
    (* time data %r does not match format %r *)
| ValueError_unconverted (rest : string)
    (* unconverted data remains: %s *)
| ValueError_invalid_literal (text : string)
    (* invalid literal for int() with base 10: %r *)
| ValueError_date (what : string)
    (* day is out of range for month, month must be in 1..12, ... *)
| TypeError_strptime_arg (index : Z) (type : string)
    (* strptime() argument %d must be str, not %s *)
| KeyError (key : string)
| ExternalError (cls msg : string).
    (* raised by a library call: OSError, ClientError, psycopg2.Error, ... *)

(** A record of the log file: [logging.info(text)] or
    [logging.error(text + str(e))]. *)
Inductive log_record : Type :=
| LogInfo (text : string)
| LogError (text : string) (e : exn).

Definition is_error (r : log_record) : bool :=
  match r with
  | LogError _ _ => true
  | LogInfo _ => false
  end.

(* ===================================================================== *)
(** ** Regular expressions of [_strptime.TimeRE] *)
(* ===================================================================== *)

Module Re.

(** [lo <= c <= hi] on code points: the class [[lo-hi]]. *)
Definition in_range (lo hi c : ascii) : bool :=
  (N_of_ascii lo <=? N_of_ascii c)%N && (N_of_ascii c <=? N_of_ascii hi)%N.

(** The class [\d]. *)
Definition is_decimal (c : ascii) : bool := in_range "0" "9" c.

(** The fragment of the pattern language that the directives [%d], [%m]
    and [%y] expand to.  The pattern is compiled with IGNORECASE, which
    changes nothing for the characters used here (digits, blank, hyphen). *)
Inductive regex : Type :=
| Chr (c : ascii)                 (* a literal character *)
| Rng (lo hi : ascii)             (* [lo-hi] *)
| Dec                             (* \d *)
| Cat (r1 r2 : regex)             (* r1 r2 *)
| Alt (r1 r2 : regex)             (* r1|r2 *)
| Grp (name : string) (r : regex) (* (?P<name>r) *).

(** One way of matching a pattern at the start of a string: the text
    consumed, the named groups and what is left of the string. *)
Record found : Type := Found {
  consumed : string;
  groupdict : list (string * string);
  remainder : string
}.

Definition one_char (p : ascii -> bool) (s : string) : list found :=
  match s with
  | String a rest => if p a then [Found (String a "") [] rest] else []
  | EmptyString => []
  end.

(** All the ways of matching [r] at the start of [s], in the order in
    which the backtracking matcher tries them: the alternatives of [|]
    from left to right, and for a concatenation every way of matching
    the left part before the next one. *)
Fixpoint run (r : regex) (s : string) : list found :=
  match r with
  | Chr c => one_char (Ascii.eqb c) s
  | Rng lo hi => one_char (in_range lo hi) s
  | Dec => one_char is_decimal s
  | Cat r1 r2 =>
      flat_map (fun f1 =>
        map (fun f2 => Found (consumed f1 +:+ consumed f2)
                             (groupdict f1 ++ groupdict f2)
                             (remainder f2))
            (run r2 (remainder f1)))
        (run r1 s)
  | Alt r1 r2 => run r1 s ++ run r2 s
  | Grp name r1 =>
      map (fun f => Found (consumed f) ((name, consumed f) :: groupdict f)
                          (remainder f))
          (run r1 s)
  end.

(** [pattern.match(s)]: the first way that succeeds, if any. *)
Definition re_match (r : regex) (s : string) : option found :=
  head (run r s).

(** [found.groupdict()[name]] *)
Fixpoint group (name : string) (d : list (string * string)) : option string :=
  match d with
  | [] => None
  | (k, v) :: d' => if String.eqb k name then Some v else group name d'
  end.

End Re.

(* ===================================================================== *)
(** ** [datetime.strptime(_, '%d-%m-%y')] and [strftime('%Y-%m-%d')] *)
(* ===================================================================== *)

Module Datetime.
Import Re.

(** 'd': (?P<d>3[0-1]|[1-2]\d|0[1-9]|[1-9]| [1-9]) *)
Definition re_d : regex :=
  Grp "d"
    (Alt (Cat (Chr "3") (Rng "0" "1"))
    (Alt (Cat (Rng "1" "2") Dec)
    (Alt (Cat (Chr "0") (Rng "1" "9"))
    (Alt (Rng "1" "9")
         (Cat (Chr " ") (Rng "1" "9")))))).

(** 'm': (?P<m>1[0-2]|0[1-9]|[1-9]) *)
Definition re_m : regex :=
  Grp "m"
    (Alt (Cat (Chr "1") (Rng "0" "2"))
    (Alt (Cat (Chr "0") (Rng "1" "9"))
         (Rng "1" "9"))).

(** 'y': (?P<y>\d\d) *)
Definition re_y : regex := Grp "y" (Cat Dec Dec).

(** The pattern of the format '%d-%m-%y'. *)
Definition format_regex : regex :=
  Cat re_d (Cat (Chr "-") (Cat re_m (Cat (Chr "-") re_y))).

Definition date_format : string := "%d-%m-%y".

(** The value of a decimal digit. *)
Definition digit_value (c : ascii) : Z := Z.of_N (N_of_ascii c) - 48.

Fixpoint digits_value (acc : Z) (s : string) : option Z :=
  match s with
  | EmptyString => Some acc
  | String c rest =>
      if is_decimal c then digits_value (10 * acc + digit_value c) rest
      else None
  end.

Fixpoint lstrip (s : string) : string :=
  match s with
  | String " " rest => lstrip rest
  | _ => s
  end.

(** [int(text)] on the texts a group of [format_regex] can hold: blanks,
    then a non-empty run of digits.  Anything else is reported as an
    invalid literal. *)
Definition py_int (text : string) : exn + Z :=
  match lstrip text with
  | EmptyString => inl (ValueError_invalid_literal text)
  | t => match digits_value 0 t with
         | Some n => inr n
         | None => inl (ValueError_invalid_literal text)
         end
  end.

(** The date fields of a [datetime]; the time of day, which '%d-%m-%y'
    leaves at midnight and '%Y-%m-%d' does not print, is left out. *)
Record datetime : Type := Datetime { year : Z; month : Z; day : Z }.

(** [datetime._is_leap] *)
Definition is_leap (y : Z) : bool :=
  (y mod 4 =? 0) && (negb (y mod 100 =? 0) || (y mod 400 =? 0)).

(** [datetime._DAYS_IN_MONTH] and [datetime._days_in_month] *)
Definition days_in_month (y m : Z) : Z :=
  if (m =? 2) && is_leap y then 29
  else match m with
       | 1 => 31 | 2 => 28 | 3 => 31 | 4 => 30 | 5 => 31 | 6 => 30
       | 7 => 31 | 8 => 31 | 9 => 30 | 10 => 31 | 11 => 30 | 12 => 31
       | _ => 0
       end.

(** [datetime_date(year, month, day)]: the constructor checks its fields. *)
Definition check_date_fields (y m d : Z) : exn + datetime :=
  if negb ((1 <=? y) && (y <=? 9999)) then
    inl (ValueError_date "year must be in 1..9999")
  else if negb ((1 <=? m) && (m <=? 12)) then
    inl (ValueError_date "month must be in 1..12")
  else if negb ((1 <=? d) && (d <=? days_in_month y m)) then
    inl (ValueError_date "day is out of range for month")
  else inr (Datetime y m d).

(** The two-digit year of '%y': values 69..99 are 1969..1999 and values
    0..68 are 2000..2068. *)
Definition century (y : Z) : Z :=
  if y <=? 68 then y + 2000 else y + 1900.

Definition bind_exn {A B : Type} (x : exn + A) (f : A -> exn + B) : exn + B :=
  match x with
  | inl e => inl e
  | inr a => f a
  end.

(** The text of a group that took part in the match. *)
Definition found_group (name : string) (f : found) : exn + string :=
  match group name (groupdict f) with
  | Some t => inr t
  | None => inl (KeyError name)
  end.

(** [_strptime._strptime(data_string, '%d-%m-%y')] followed by the
    construction of the [datetime]. *)
Definition strptime_str (data_string : string) : exn + datetime :=
  match re_match format_regex data_string with
  | None => inl (ValueError_no_match data_string date_format)
  | Some f =>
      if negb (String.eqb (remainder f) "") then
        inl (ValueError_unconverted (remainder f))
      else
        bind_exn (found_group "d" f) (fun td =>
        bind_exn (py_int td) (fun d =>
        bind_exn (found_group "m" f) (fun tm =>
        bind_exn (py_int tm) (fun m =>
        bind_exn (found_group "y" f) (fun ty =>
        bind_exn (py_int ty) (fun y =>
        check_date_fields (century y) m d))))))
  end.

(** [datetime.strptime(date_str, '%d-%m-%y')]: the first argument must
    be a [str]. *)
Definition strptime (date_str : pyval) : exn + datetime :=
  match date_str with
  | PyStr s => strptime_str s
  | v => inl (TypeError_strptime_arg 0 (type_name v))
  end.

(** The character of a decimal digit. *)
Definition digit_char (n : Z) : ascii := ascii_of_N (Z.to_N (48 + n)).

(** A number below 100 on two digits: '%d', '%m' and '%y' when printed. *)
Definition pad2 (n : Z) : string :=
  String (digit_char (n / 10)) (String (digit_char (n mod 10)) "").

(** '%Y' for the years 1000..9999: four digits. *)
Definition pad4 (n : Z) : string :=
  String (digit_char (n / 1000))
    (String (digit_char (n / 100 mod 10)) (pad2 (n mod 100))).

(** [date_obj.strftime('%Y-%m-%d')] *)
Definition strftime (dt : datetime) : string :=
  pad4 (year dt) +:+ "-" +:+ pad2 (month dt) +:+ "-" +:+ pad2 (day dt).

End Datetime.


Import Datetime.

(* ===================================================================== *)
(** ** Data frames *)
(* ===================================================================== *)

(** A data frame: the length of its index and its columns from left to
    right, each a label and the cells from the first row to the last. *)
Record DataFrame : Type := Frame {
  nrows : nat;
  series : list (string * list pyval)
}.

(** The header: the labels of the columns, from left to right. *)
Definition labels (df : DataFrame) : list string := map fst (series df).

(** What [pd.read_csv] guarantees of the frame it builds: every column
    has one cell per row, and no label is repeated (a repeated header is
    renamed while reading). *)
Definition well_formed (df : DataFrame) : Prop :=
  Forall (fun c => length (snd c) = nrows df) (series df) /\ NoDup (labels df).

Fixpoint find_column (name : string) (cols : list (string * list pyval))
  : option (list pyval) :=
  match cols with
  | [] => None
  | (k, v) :: rest => if String.eqb k name then Some v else find_column name rest
  end.

(** [df[name] = values] for a series on the index of [df]: the column of
    that label is replaced where it stands; a new label is added last. *)
Definition set_column (name : string) (values : list pyval)
    (cols : list (string * list pyval)) : list (string * list pyval) :=
  match find_column name cols with
  | Some _ =>
      map (fun c => if String.eqb (fst c) name then (fst c, values) else c) cols
  | None => cols ++ [(name, values)]
  end.

(* ===================================================================== *)
(** ** SQL statements and calls to the libraries *)
(* ===================================================================== *)

Inductive sql_type : Type :=
| INTEGER
| VARCHAR (n : Z)
| NUMERIC
| DATE.

Inductive sql : Type :=
| CreateTable (if_not_exists : bool) (table : string)
              (columns : list (string * sql_type))
| CopyFromStdin (table : string) (csv header : bool).

(** The parameters of the connection, from the section [postgresql]. *)
Record db_params : Type := DbParams {
  dbname : string;
  user : string;
  password : string;
  host : string;
  port : string
}.

(** The calls the program makes to the operating system and to its
    libraries, each with its arguments.  [Call_rollback] is
    [conn.rollback()], which a DB-API connection offers next to
    [conn.commit()]. *)
Inductive call : Type :=
| Call_makedirs (path : string)
| Call_basicConfig (filename : string)
| Call_config_read (path : string)
| Call_boto3_client (access_key secret_key region : string)
| Call_upload_file (filename bucket key : string)
| Call_download_file (bucket key filename : string)
| Call_read_csv (path : string)
| Call_to_csv (df : DataFrame) (path : string)
| Call_open (path : string)
| Call_file_close
| Call_connect (params : db_params)
| Call_cursor
| Call_execute (statement : sql)
| Call_copy_expert (statement : sql)
| Call_commit
| Call_rollback
| Call_cursor_close
| Call_conn_close.

(* ===================================================================== *)
(** ** Statements: state, outcomes, try/except/finally *)
(* ===================================================================== *)

Inductive outcome (A : Type) : Type :=
| Return (a : A)
| Raise (e : exn).
Arguments Return {A} a.
Arguments Raise {A} e.

(** The state of a run: the world outside the process, the records
    written to the log file so far, and the library calls made so far,
    oldest first. *)
Record state (W : Type) : Type := State {
  world : W;
  log : list log_record;
  calls : list call
}.
Arguments State {W} world log calls.
Arguments world {W} s.
Arguments log {W} s.
Arguments calls {W} s.

Definition M (W A : Type) : Type := state W -> outcome A * state W.

Definition ret {W A : Type} (a : A) : M W A := fun st => (Return a, st).

Definition raise {W A : Type} (e : exn) : M W A := fun st => (Raise e, st).

Definition bind {W A B : Type} (m : M W A) (k : A -> M W B) : M W B :=
  fun st =>
    match m st with
    | (Return a, st') => k a st'
    | (Raise e, st') => (Raise e, st')
    end.

Declare Scope py_scope.
Delimit Scope py_scope with py.
Notation "x <- m ;; k" := (bind m (fun x => k))
  (at level 100, m at next level, right associativity) : py_scope.
Notation "m ;; k" := (bind m (fun _ => k))
  (at level 100, right associativity) : py_scope.
Local Open Scope py_scope.

(** [try: body  except Exception as e: handler(e)] *)
Definition try_except {W A : Type} (body : M W A) (handler : exn -> M W A)
  : M W A :=
  fun st =>
    match body st with
    | (Return a, st') => (Return a, st')
    | (Raise e, st') => handler e st'
    end.

(** [try: body  finally: cleanup]: the cleanup runs on both ways out of
    the body; an exception of the body goes on after it, unless the
    cleanup raises one itself. *)
Definition try_finally {W A : Type} (body : M W A) (cleanup : M W unit)
  : M W A :=
  fun st =>
    match body st with
    | (r, st') =>
        match cleanup st' with
        | (Return _, st'') => (r, st'')
        | (Raise e, st'') => (Raise e, st'')
        end
    end.

(** A value or an exception computed without side effect. *)
Definition of_sum {W A : Type} (x : exn + A) : M W A :=
  match x with
  | inr a => ret a
  | inl e => raise e
  end.

(** [logging.info(text)] *)
Definition logging_info {W : Type} (text : string) : M W unit :=
  fun st => (Return tt, State (world st) (log st ++ [LogInfo text]) (calls st)).

(** [logging.error(f'{text}{str(e)}')] *)
Definition logging_error {W : Type} (text : string) (e : exn) : M W unit :=
  fun st => (Return tt, State (world st) (log st ++ [LogError text e]) (calls st)).

(** A call to a library: it is recorded, then the library acts on the
    world and returns or raises. *)
Definition invoke {W A : Type} (c : call) (op : W -> outcome A * W) : M W A :=
  fun st =>
    match op (world st) with
    | (r, w') => (r, State w' (log st) (calls st ++ [c]))
    end.

(** A call to a library operation that returns in every state. *)
Definition invoke_total {W : Type} (c : call) (op : W -> W) : M W unit :=
  fun st => (Return tt, State (op (world st)) (log st) (calls st ++ [c])).

(* ===================================================================== *)
(** ** The libraries the program calls *)
(* ===================================================================== *)

(** What [config.read] leaves in the parser: the sections of the file,
    each with its options. A file that is missing leaves no section. *)
Abbreviation Config := (gmap string (gmap string string)).

(** The operating system, configparser, boto3, pandas and psycopg2 as
    the program uses them, over a world [W].  Every operation may return
    or raise, and may change the world, except the two [close] methods of
    psycopg2, which return in every state. *)
Record library (W : Type) : Type := Library {
  S3Client : Type;
  Connection : Type;
  Cursor : Type;
  File : Type;
  (* os.makedirs(path, exist_ok=True) *)
  os_makedirs : string -> W -> outcome unit * W;
  (* logging.basicConfig(filename=..., level=logging.INFO) *)
  logging_basicConfig : string -> W -> outcome unit * W;
  (* config.read(path) *)
  config_read : string -> W -> outcome Config * W;
  (* boto3.client('s3', aws_access_key_id=, aws_secret_access_key=, region_name=) *)
  boto3_client : string -> string -> string -> W -> outcome S3Client * W;
  (* s3_client.upload_file(filename, bucket, key) *)
  s3_upload_file : S3Client -> string -> string -> string -> W -> outcome unit * W;
  (* s3_client.download_file(bucket, key, filename) *)
  s3_download_file : S3Client -> string -> string -> string -> W -> outcome unit * W;
  (* pd.read_csv(path) *)
  pd_read_csv : string -> W -> outcome DataFrame * W;
  (* df.to_csv(path, index=False) *)
  df_to_csv : DataFrame -> string -> W -> outcome unit * W;
  (* open(path, 'r') and the close on leaving the with block *)
  file_open : string -> W -> outcome File * W;
  file_close : File -> W -> W;
  (* psycopg2.connect with the entries of db_config *)
  pg_connect : db_params -> W -> outcome Connection * W;
  (* conn.cursor() *)
  conn_cursor : Connection -> W -> outcome Cursor * W;
  (* cursor.execute(statement) *)
  cursor_execute : Cursor -> sql -> W -> outcome unit * W;
  (* cursor.copy_expert(sql=statement, file=f) *)
  cursor_copy_expert : Cursor -> sql -> File -> W -> outcome unit * W;
  (* conn.commit() *)
  conn_commit : Connection -> W -> outcome unit * W;
  (* cursor.close() *)
  cursor_close : Cursor -> W -> W;
  (* conn.close() *)
  conn_close : Connection -> W -> W
}.

Arguments S3Client {W} l.
Arguments Connection {W} l.
Arguments Cursor {W} l.
Arguments File {W} l.
Arguments os_makedirs {W} l _ _.
Arguments logging_basicConfig {W} l _ _.
Arguments config_read {W} l _ _.
Arguments boto3_client {W} l _ _ _ _.
Arguments s3_upload_file {W} l _ _ _ _ _.
Arguments s3_download_file {W} l _ _ _ _ _.
Arguments pd_read_csv {W} l _ _.
Arguments df_to_csv {W} l _ _ _.
Arguments file_open {W} l _ _.
Arguments file_close {W} l _ _.
Arguments pg_connect {W} l _ _.
Arguments conn_cursor {W} l _ _.
Arguments cursor_execute {W} l _ _ _.
Arguments cursor_copy_expert {W} l _ _ _ _.
Arguments conn_commit {W} l _ _.
Arguments cursor_close {W} l _ _.
Arguments conn_close {W} l _ _.

(* ===================================================================== *)
(** ** main.py *)
(* ===================================================================== *)

(** [posixpath.join(a, b)] for a directory name [a] that does not end in
    a slash and a relative [b]. *)
Definition os_path_join (a b : string) : string := a +:+ "/" +:+ b.

(** [config[section][option]] *)
Definition config_get {W : Type} (config : Config) (section option : string)
  : M W string :=
  match config !! section with
  | None => raise (KeyError section)
  | Some options =>
      match options !! option with
      | None => raise (KeyError option)
      | Some v => ret v
      end
  end.

(** Lines 73-79. *)
Definition convert_date_string {W : Type} (date_str : pyval) : M W pyval :=
  try_except
    (date_obj <- of_sum (strptime date_str) ;;
     ret (PyStr (strftime date_obj)))
    (fun e =>
       logging_error "Error converting date string: " e ;;
       ret PyNone).

(** [df[name]] *)
Definition getitem {W : Type} (df : DataFrame) (name : string)
  : M W (list pyval) :=
  match find_column name (series df) with
  | Some v => ret v
  | None => raise (KeyError name)
  end.

(** [s.apply(f)]: [f] on every cell, from the first row to the last. *)
Fixpoint series_apply {W : Type} (f : pyval -> M W pyval) (s : list pyval)
  : M W (list pyval) :=
  match s with
  | [] => ret []
  | x :: rest =>
      y <- f x ;;
      ys <- series_apply f rest ;;
      ret (y :: ys)
  end.

(** [df[name] = values] *)
Definition setitem (df : DataFrame) (name : string) (values : list pyval)
  : DataFrame :=
  Frame (nrows df) (set_column name values (series df)).

(** The ten columns of the table, lines 42-53. *)
Definition your_table_columns : list (string * sql_type) :=
  [ ("User ID", INTEGER);
    ("Subscription Type", VARCHAR 50);
    ("Monthly Revenue", NUMERIC);
    ("Join Date", DATE);
    ("Last Payment Date", DATE);
    ("Country", VARCHAR 50);
    ("Age", INTEGER);
    ("Gender", VARCHAR 10);
    ("Device", VARCHAR 50);
    ("Plan Duration", VARCHAR 20) ].

(** CREATE TABLE IF NOT EXISTS your_table (...) *)
Definition create_table_statement : sql :=
  CreateTable true "your_table" your_table_columns.

(** COPY your_table FROM stdin WITH CSV HEADER *)
Definition copy_statement : sql := CopyFromStdin "your_table" true true.

(** The module-level names that the functions read. *)
Record globals {W : Type} (L : library W) : Type := Globals {
  s3_bucket_name : string;
  s3_client : S3Client L;
  db_config : db_params
}.
Arguments Globals {W L} _ _ _.
Arguments s3_bucket_name {W L} g.
Arguments s3_client {W L} g.
Arguments db_config {W L} g.

Section Program.

Context {W : Type} (L : library W).

(** Lines 10-36: the statements run when the module is loaded. *)
Definition module_body : M W (globals L) :=
  let log_dir := "log" in
  invoke (Call_makedirs log_dir) (os_makedirs L log_dir) ;;
  let log_file := os_path_join log_dir "app.log" in
  invoke (Call_basicConfig log_file) (logging_basicConfig L log_file) ;;
  config <- invoke (Call_config_read "config/config.ini")
                   (config_read L "config/config.ini") ;;
  s3_bucket_name <- config_get config "s3" "bucket_name" ;;
  aws_access_key_id <- config_get config "s3" "aws_access_key_id" ;;
  aws_secret_access_key <- config_get config "s3" "aws_secret_access_key" ;;
  aws_region_name <- config_get config "s3" "aws_region_name" ;;
  s3_client <- invoke
      (Call_boto3_client aws_access_key_id aws_secret_access_key aws_region_name)
      (boto3_client L aws_access_key_id aws_secret_access_key aws_region_name) ;;
  dbname <- config_get config "postgresql" "dbname" ;;
  user <- config_get config "postgresql" "user" ;;
  password <- config_get config "postgresql" "password" ;;
  host <- config_get config "postgresql" "host" ;;
  port <- config_get config "postgresql" "port" ;;
  ret (Globals s3_bucket_name s3_client (DbParams dbname user password host port)).

(** Lines 39-58. *)
Definition create_table_if_not_exists (conn : Connection L) (cursor : Cursor L)
  : M W unit :=
  try_except
    (invoke (Call_execute create_table_statement)
            (cursor_execute L cursor create_table_statement) ;;
     invoke Call_commit (conn_commit L conn) ;;
     logging_info "Table created or already exists in PostgreSQL")
    (fun e => logging_error "Error creating table in PostgreSQL: " e).

(** Lines 61-70. *)
Definition preprocess_csv (input_file output_file : string) : M W unit :=
  try_except
    (df <- invoke (Call_read_csv input_file) (pd_read_csv L input_file) ;;
     join_date <- getitem df "Join Date" ;;
     join_date <- series_apply convert_date_string join_date ;;
     let df := setitem df "Join Date" join_date in
     last_payment <- getitem df "Last Payment Date" ;;
     last_payment <- series_apply convert_date_string last_payment ;;
     let df := setitem df "Last Payment Date" last_payment in
     invoke (Call_to_csv df output_file) (df_to_csv L df output_file) ;;
     logging_info ("Preprocessed " +:+ input_file +:+ " and saved as "
                   +:+ output_file))
    (fun e => logging_error ("Error preprocessing " +:+ input_file +:+ ": ") e).

(** Lines 82-87. *)
Definition upload_file_to_s3 (g : globals L) (local_file_path s3_key : string)
  : M W unit :=
  try_except
    (invoke (Call_upload_file local_file_path (s3_bucket_name g) s3_key)
            (s3_upload_file L (s3_client g) local_file_path (s3_bucket_name g)
                            s3_key) ;;
     logging_info ("Uploaded " +:+ local_file_path +:+ " to S3 as " +:+ s3_key))
    (fun e =>
       logging_error ("Error uploading " +:+ local_file_path +:+ " to S3: ") e).

(** Lines 90-95. *)
Definition fetch_csv_from_s3 (g : globals L) (s3_key local_path : string)
  : M W unit :=
  try_except
    (invoke (Call_download_file (s3_bucket_name g) s3_key local_path)
            (s3_download_file L (s3_client g) (s3_bucket_name g) s3_key
                              local_path) ;;
     logging_info ("Fetched " +:+ s3_key +:+ " from S3 to " +:+ local_path))
    (fun e => logging_error ("Error fetching " +:+ s3_key +:+ " from S3: ") e).

(** [with open(path, 'r') as f: body(f)] *)
Definition with_open {A : Type} (path : string) (body : File L -> M W A)
  : M W A :=
  f <- invoke (Call_open path) (file_open L path) ;;
  try_finally (body f) (invoke_total Call_file_close (file_close L f)).

(** Lines 130-141 of [main]: the bulk load and its cleanup. *)
Definition bulk_load (conn : Connection L) (cursor : Cursor L)
    (preprocessed_csv_path : string) : M W unit :=
  try_finally
    (try_except
       (with_open preprocessed_csv_path (fun f =>
          invoke (Call_copy_expert copy_statement)
                 (cursor_copy_expert L cursor copy_statement f)) ;;
        invoke Call_commit (conn_commit L conn) ;;
        logging_info "Data inserted into PostgreSQL successfully")
       (fun e => logging_error "Error inserting data into PostgreSQL: " e))
    (invoke_total Call_cursor_close (cursor_close L cursor) ;;
     invoke_total Call_conn_close (conn_close L conn)).

Definition csv_filename : string := "data/input.csv".
Definition s3_key_uncleaned : string := "data/your-input-uncleaned.csv".
Definition s3_key_cleaned : string := "data/your-input-cleaned.csv".
Definition local_csv_dir : string := "data/temp".
Definition local_csv_path : string := os_path_join local_csv_dir "your-input.csv".
Definition preprocessed_csv_path : string :=
  os_path_join local_csv_dir "preprocessed-data.csv".

(** Lines 98-141. *)
Definition main (g : globals L) : M W unit :=
  invoke (Call_makedirs local_csv_dir) (os_makedirs L local_csv_dir) ;;
  conn <- invoke (Call_connect (db_config g)) (pg_connect L (db_config g)) ;;
  cursor <- invoke Call_cursor (conn_cursor L conn) ;;
  create_table_if_not_exists conn cursor ;;
  upload_file_to_s3 g csv_filename s3_key_uncleaned ;;
  fetch_csv_from_s3 g s3_key_uncleaned local_csv_path ;;
  preprocess_csv local_csv_path preprocessed_csv_path ;;
  upload_file_to_s3 g preprocessed_csv_path s3_key_cleaned ;;
  bulk_load conn cursor preprocessed_csv_path.

(** [python main.py]: the module is loaded, then, its name being
    [__main__], [main()] is called. *)
Definition script : M W unit :=
  g <- module_body ;;
  main g.

(** The state in which the interpreter starts the script. *)
Definition initial_state (w : W) : state W := State w [] [].

(** The exit status of the process: 0 when the script runs to its end,
    1 when an exception reaches the top level. *)
Definition exit_status (w : W) : Z :=
  match fst (script (initial_state w)) with
  | Return _ => 0
  | Raise _ => 1
  end.

End Program.

(* ===================================================================== *)
(** ** A reference world: local files, one bucket, one PostgreSQL server *)
(* ===================================================================== *)

Module Sim.

(** A file or a stored object: plain text, or CSV text, which is kept as
    the frame that [pd.read_csv] builds from it. *)
Inductive file_data : Type :=
| Text (s : string)
| Csv (df : DataFrame).

Record table : Type := Table {
  table_columns : list (string * sql_type);
  table_rows : list (list pyval)
}.

(** The transaction of the connection: none open, one open with its own
    view of the tables, or one that a failed statement has aborted. *)
Inductive transaction : Type :=
| Idle
| Active (working : gmap string table)
| Aborted.

Record world : Type := World {
  files : gmap string file_data;      (* the local files, by path *)
  disk_writable : bool;
  config_file : Config;               (* config/config.ini as parsed *)
  objects : gmap string file_data;    (* the objects of the bucket, by key *)
  storage_reachable : bool;
  server_reachable : bool;
  conn_open : bool;
  cursor_open : bool;
  tables : gmap string table;         (* the committed tables, by name *)
  txn : transaction
}.

Definition set_files (f : gmap string file_data) (w : world) : world :=
  World f (disk_writable w) (config_file w) (objects w) (storage_reachable w)
        (server_reachable w) (conn_open w) (cursor_open w) (tables w) (txn w).

Definition set_objects (o : gmap string file_data) (w : world) : world :=
  World (files w) (disk_writable w) (config_file w) o (storage_reachable w)
        (server_reachable w) (conn_open w) (cursor_open w) (tables w) (txn w).

Definition set_conn_open (b : bool) (w : world) : world :=
  World (files w) (disk_writable w) (config_file w) (objects w)
        (storage_reachable w) (server_reachable w) b (cursor_open w)
        (tables w) (txn w).

Definition set_cursor_open (b : bool) (w : world) : world :=
  World (files w) (disk_writable w) (config_file w) (objects w)
        (storage_reachable w) (server_reachable w) (conn_open w) b
        (tables w) (txn w).

Definition set_txn (t : transaction) (w : world) : world :=
  World (files w) (disk_writable w) (config_file w) (objects w)
        (storage_reachable w) (server_reachable w) (conn_open w)
        (cursor_open w) (tables w) t.

Definition set_tables (t : gmap string table) (w : world) : world :=
  World (files w) (disk_writable w) (config_file w) (objects w)
        (storage_reachable w) (server_reachable w) (conn_open w)
        (cursor_open w) t (txn w).

Definition makedirs (path : string) (w : world) : outcome unit * world :=
  if disk_writable w then (Return tt, w)
  else (Raise (ExternalError "PermissionError" path), w).

Definition basicConfig (filename : string) (w : world) : outcome unit * world :=
  if disk_writable w then (Return tt, w)
  else (Raise (ExternalError "PermissionError" filename), w).

Definition read_config (path : string) (w : world) : outcome Config * world :=
  (Return (config_file w), w).

Definition client (access_key secret_key region : string) (w : world)
  : outcome unit * world :=
  (Return tt, w).

Definition upload_file (c : unit) (filename bucket key : string) (w : world)
  : outcome unit * world :=
  match files w !! filename with
  | None => (Raise (ExternalError "FileNotFoundError" filename), w)
  | Some d =>
      if storage_reachable w then (Return tt, set_objects (<[key := d]> (objects w)) w)
      else (Raise (ExternalError "EndpointConnectionError" bucket), w)
  end.

Definition download_file (c : unit) (bucket key filename : string) (w : world)
  : outcome unit * world :=
  if storage_reachable w then
    match objects w !! key with
    | None => (Raise (ExternalError "ClientError" key), w)
    | Some d =>
        if disk_writable w then (Return tt, set_files (<[filename := d]> (files w)) w)
        else (Raise (ExternalError "PermissionError" filename), w)
    end
  else (Raise (ExternalError "EndpointConnectionError" bucket), w).

Definition read_csv (path : string) (w : world) : outcome DataFrame * world :=
  match files w !! path with
  | None => (Raise (ExternalError "FileNotFoundError" path), w)
  | Some (Text _) => (Raise (ExternalError "ParserError" path), w)
  | Some (Csv df) => (Return df, w)
  end.

Definition to_csv (df : DataFrame) (path : string) (w : world)
  : outcome unit * world :=
  if disk_writable w then (Return tt, set_files (<[path := Csv df]> (files w)) w)
  else (Raise (ExternalError "PermissionError" path), w).

Definition open (path : string) (w : world) : outcome file_data * world :=
  match files w !! path with
  | None => (Raise (ExternalError "FileNotFoundError" path), w)
  | Some d => (Return d, w)
  end.

Definition connect (p : db_params) (w : world) : outcome unit * world :=
  if server_reachable w then (Return tt, set_txn Idle (set_conn_open true w))
  else (Raise (ExternalError "OperationalError" (host p)), w).

Definition cursor (c : unit) (w : world) : outcome unit * world :=
  if conn_open w then (Return tt, set_cursor_open true w)
  else (Raise (ExternalError "InterfaceError" "connection already closed"), w).

(** The rows of a frame, first to last, each with its cells from left to
    right. *)
Definition frame_rows (df : DataFrame) : list (list pyval) :=
  map (fun i => map (fun c => nth i (snd c) PyNone) (series df))
      (seq 0 (nrows df)).

(** The effect of a statement on the tables that the transaction sees.
    [input] is the file handed to COPY ... FROM stdin, if any. *)
Definition run_statement (s : sql) (input : option file_data)
    (cat : gmap string table) : exn + gmap string table :=
  match s with
  | CreateTable if_not_exists name cols =>
      match cat !! name with
      | Some _ =>
          if if_not_exists then inr cat
          else inl (ExternalError "DuplicateTable" name)
      | None => inr (<[name := Table cols []]> cat)
      end
  | CopyFromStdin name _ _ =>
      match cat !! name, input with
      | None, _ => inl (ExternalError "UndefinedTable" name)
      | Some t, Some (Csv df) =>
          if (length (series df) =? length (table_columns t))%nat then
            inr (<[name := Table (table_columns t)
                                 (table_rows t ++ frame_rows df)]> cat)
          else inl (ExternalError "BadCopyFileFormat" name)
      | Some t, _ => inl (ExternalError "ProgrammingError" name)
      end
  end.

(** A statement sent on the cursor: it opens a transaction when none is
    open, is refused in an aborted one, and aborts it when it fails. *)
Definition statement (s : sql) (input : option file_data) (w : world)
  : outcome unit * world :=
  if negb (conn_open w && cursor_open w) then
    (Raise (ExternalError "InterfaceError" "cursor already closed"), w)
  else
    let step cat :=
      match run_statement s input cat with
      | inr cat' => (Return tt, set_txn (Active cat') w)
      | inl e => (Raise e, set_txn Aborted w)
      end in
    match txn w with
    | Aborted => (Raise (ExternalError "InFailedSqlTransaction" ""), w)
    | Idle => step (tables w)
    | Active cat => step cat
    end.

Definition execute (c : unit) (s : sql) (w : world) : outcome unit * world :=
  statement s None w.

Definition copy_expert (c : unit) (s : sql) (f : file_data) (w : world)
  : outcome unit * world :=
  statement s (Some f) w.

(** COMMIT: the tables of the open transaction become the committed
    ones; the server ends an aborted transaction by rolling it back. *)
Definition commit (c : unit) (w : world) : outcome unit * world :=
  if negb (conn_open w) then
    (Raise (ExternalError "InterfaceError" "connection already closed"), w)
  else
    match txn w with
    | Active cat => (Return tt, set_txn Idle (set_tables cat w))
    | _ => (Return tt, set_txn Idle w)
    end.

Definition close_cursor (c : unit) (w : world) : world := set_cursor_open false w.

(** Closing the connection discards a transaction that is still open. *)
Definition close_conn (c : unit) (w : world) : world :=
  set_txn Idle (set_cursor_open false (set_conn_open false w)).

Definition lib : library world :=
  {| S3Client := unit;
     Connection := unit;
     Cursor := unit;
     File := file_data;
     os_makedirs := makedirs;
     logging_basicConfig := basicConfig;
     config_read := read_config;
     boto3_client := client;
     s3_upload_file := upload_file;
     s3_download_file := download_file;
     pd_read_csv := read_csv;
     df_to_csv := to_csv;
     file_open := open;
     file_close := fun _ w => w;
     pg_connect := connect;
     conn_cursor := cursor;
     cursor_execute := execute;
     cursor_copy_expert := copy_expert;
     conn_commit := commit;
     cursor_close := close_cursor;
     conn_close := close_conn |}.

(** A settings file with the two sections the program reads. *)
Definition sample_config : Config :=
  {[ "s3" := {[ "bucket_name" := "bucket";
                "aws_access_key_id" := "id";
                "aws_secret_access_key" := "secret";
                "aws_region_name" := "eu-west-1" ]};
     "postgresql" := {[ "dbname" := "db";
                        "user" := "etl";
                        "password" := "pw";
                        "host" := "localhost";
                        "port" := "5432" ]} ]}.

(** The row of the end-to-end scenario of the specification. *)
Definition sample_frame : DataFrame :=
  Frame 1
    [ ("User ID", [PyInt 1]);
      ("Subscription Type", [PyStr "Basic"]);
      ("Monthly Revenue", [PyFloat (FNum 5623870034678907 (-49))]);
      ("Join Date", [PyStr "01-01-22"]);
      ("Last Payment Date", [PyStr "15-01-22"]);
      ("Country", [PyStr "US"]);
      ("Age", [PyInt 34]);
      ("Gender", [PyStr "M"]);
      ("Device", [PyStr "Mobile"]);
      ("Plan Duration", [PyStr "Monthly"]) ].

(** A machine on which everything works: the input file is there, the
    bucket is empty and reachable, the server is up and has no table. *)
Definition healthy : world :=
  {| files := {[ "data/input.csv" := Csv sample_frame ]};
     disk_writable := true;
     config_file := sample_config;
     objects := ∅;
     storage_reachable := true;
     server_reachable := true;
     conn_open := false;
     cursor_open := false;
     tables := ∅;
     txn := Idle |}.

(** The same machine with the database server down. *)
Definition server_down : world :=
  {| files := {[ "data/input.csv" := Csv sample_frame ]};
     disk_writable := true;
     config_file := sample_config;
     objects := ∅;
     storage_reachable := true;
     server_reachable := false;
     conn_open := false;
     cursor_open := false;
     tables := ∅;
     txn := Idle |}.

(** The same machine without its settings file. *)
Definition no_config : world :=
  {| files := {[ "data/input.csv" := Csv sample_frame ]};
     disk_writable := true;
     config_file := ∅;
     objects := ∅;
     storage_reachable := true;
     server_reachable := true;
     conn_open := false;
     cursor_open := false;
     tables := ∅;
     txn := Idle |}.

(** The machine after the raw file has been fetched. *)
Definition fetched : world :=
  {| files := {[ "data/temp/your-input.csv" := Csv sample_frame ]};
     disk_writable := true;
     config_file := sample_config;
     objects := ∅;
     storage_reachable := true;
     server_reachable := true;
     conn_open := false;
     cursor_open := false;
     tables := ∅;
     txn := Idle |}.

(** The machine with the connection and its cursor open. *)
Definition connected : world :=
  set_cursor_open true (set_conn_open true healthy).

(** The module-level names on that machine. *)
Definition sample_globals : globals lib :=
  Globals (L := lib) "bucket" tt (DbParams "db" "etl" "pw" "localhost" "5432").

End Sim.


(* ===================================================================== *)
(** ** The notions of the specification *)
(* ===================================================================== *)

(** The texts matched by a pattern, with the groups they fill: the
    declarative reading of the pattern language. *)
Inductive matches : Re.regex -> string -> list (string * string) -> Prop :=
| matches_chr c :
    matches (Re.Chr c) (String c "") []
| matches_rng lo hi c :
    Re.in_range lo hi c = true -> matches (Re.Rng lo hi) (String c "") []
| matches_dec c :
    Re.is_decimal c = true -> matches Re.Dec (String c "") []
| matches_cat r1 r2 t1 t2 g1 g2 :
    matches r1 t1 g1 -> matches r2 t2 g2 ->
    matches (Re.Cat r1 r2) (t1 +:+ t2) (g1 ++ g2)
| matches_alt_l r1 r2 t g :
    matches r1 t g -> matches (Re.Alt r1 r2) t g
| matches_alt_r r1 r2 t g :
    matches r2 t g -> matches (Re.Alt r1 r2) t g
| matches_grp name r t g :
    matches r t g -> matches (Re.Grp name r) t ((name, t) :: g).

(** The characters of the class [[lo-hi]], in order. *)
Definition chars_between (lo hi : ascii) : list ascii :=
  map (fun k => ascii_of_N (N_of_ascii lo + N.of_nat k))
      (seq 0 (N.to_nat (N_of_ascii hi + 1 - N_of_ascii lo))).

(** The integers from [lo] to [lo + n - 1]. *)
Definition z_range (lo : Z) (n : nat) : list Z :=
  map (fun k => lo + Z.of_nat k) (seq 0 n).

Fixpoint no_hyphen (s : string) : bool :=
  match s with
  | EmptyString => true
  | String c rest => negb (Ascii.eqb c "-") && no_hyphen rest
  end.

(** The ways to write the day [d] under '%d': on two digits, or for a day
    below 10 on one digit, alone or after a blank. *)
Definition day_text (d : Z) (t : string) : Prop :=
  1 <= d <= 31 /\
  (t = pad2 d \/
   (d <= 9 /\ (t = String (digit_char d) "" \/
               t = String " " (String (digit_char d) "")))).

(** The ways to write the month [m] under '%m': on two digits, or for a
    month below 10 on one digit. *)
Definition month_text (m : Z) (t : string) : Prop :=
  1 <= m <= 12 /\ (t = pad2 m \/ (m <= 9 /\ t = String (digit_char m) "")).

(** The way to write the two-digit year [y] under '%y'. *)
Definition year_text (y : Z) (t : string) : Prop :=
  0 <= y <= 99 /\ t = pad2 y.

(** [s] is written in the format day-month-2digityear and names the day
    [d], the month [m] and the two-digit year [y]. *)
Definition dmy_text (d m y : Z) (s : string) : Prop :=
  exists td tm ty,
    day_text d td /\ month_text m tm /\ year_text y ty /\
    s = td +:+ "-" +:+ tm +:+ "-" +:+ ty.

(** The day [d] of the month [m] exists in the year [y]. *)
Definition calendar_date (y m d : Z) : Prop :=
  1 <= m <= 12 /\ 1 <= d <= days_in_month y m.


(** The date as year-month-day with a four-digit year. *)
Definition iso_text (y m d : Z) : string :=
  pad4 y +:+ "-" +:+ pad2 m +:+ "-" +:+ pad2 d.

(** The Date Normalizer as a function of the cell alone. *)
Definition date_normalizer (v : pyval) : pyval :=
  match strptime v with
  | inr date_obj => PyStr (strftime date_obj)
  | inl _ => PyNone
  end.

(** The records that the Date Normalizer logs for a column. *)
Definition date_errors (cells : list pyval) : list log_record :=
  flat_map (fun v =>
    match strptime v with
    | inr _ => []
    | inl e => [LogError "Error converting date string: " e]
    end) cells.

Definition is_date_column (name : string) : bool :=
  String.eqb name "Join Date" || String.eqb name "Last Payment Date".

(** The frame with the Date Normalizer applied to the two date columns. *)
Definition normalize_frame (df : DataFrame) : DataFrame :=
  Frame (nrows df)
    (map (fun c => if is_date_column (fst c)
                   then (fst c, map date_normalizer (snd c))
                   else c)
         (series df)).

(** The stages of the pipeline. *)
Inductive stage : Type :=
| Upload_Raw
| Fetch_Raw
| Preprocess
| Upload_Clean
| Bulk_Load.

(** The library call with which a stage of [main] starts. *)
Definition stage_of_call (c : call) : option stage :=
  match c with
  | Call_upload_file filename _ key =>
      if String.eqb filename csv_filename && String.eqb key s3_key_uncleaned
      then Some Upload_Raw
      else if String.eqb filename preprocessed_csv_path
              && String.eqb key s3_key_cleaned
      then Some Upload_Clean
      else None
  | Call_download_file _ _ _ => Some Fetch_Raw
  | Call_read_csv _ => Some Preprocess
  | Call_open _ => Some Bulk_Load
  | _ => None
  end.

(** The stages started by a sequence of calls, in order. *)
Definition stages_of (cs : list call) : list stage := omap stage_of_call cs.

(** The statement [m], run in [st], returns normally after starting the
    stages [sts], in this order, and no other. *)
Definition completes {W : Type} (m : M W unit) (st : state W)
    (sts : list stage) : Prop :=
  exists st' cs,
    m st = (Return tt, st') /\ calls st' = calls st ++ cs
    /\ stages_of cs = sts.

(** [v is None] *)
Definition is_none (v : pyval) : bool :=
  match v with
  | PyNone => true
  | _ => false
  end.

(** The record that [convert_date_string] logs for a cell it refuses. *)
Definition is_date_error (r : log_record) : Prop :=
  exists e, r = LogError "Error converting date string: " e.





(** A reference machine whose fetched file holds the frame [df]. *)
Definition machine_with (df : DataFrame) : Sim.world :=
  {| Sim.files := {[ "data/temp/your-input.csv" := Sim.Csv df ]};
     Sim.disk_writable := true;
     Sim.config_file := Sim.sample_config;
     Sim.objects := ∅;
     Sim.storage_reachable := true;
     Sim.server_reachable := true;
     Sim.conn_open := false;
     Sim.cursor_open := false;
     Sim.tables := ∅;
     Sim.txn := Sim.Idle |}.

(** Three rows, some of whose dates cannot be read. *)
Definition dirty_frame : DataFrame :=
  Frame 3
    [ ("User ID", [PyInt 1; PyInt 2; PyInt 3]);
      ("Join Date", [PyStr "01-01-22"; PyStr "2021/03/05"; PyFloat FNaN]);
      ("Last Payment Date", [PyStr "15-01-22"; PyStr "31-02-22"; PyStr "1-2-03"]);
      ("Country", [PyStr "US"; PyStr "NA"; PyStr "FR"]) ].

(** A frame without the column Last Payment Date. *)
Definition short_frame : DataFrame :=
  Frame 2
    [ ("User ID", [PyInt 1; PyInt 2]);
      ("Join Date", [PyStr "01-01-22"; PyStr "yesterday"]) ].

(** The reference libraries with a connection that gives no cursor. *)
Definition lib_without_cursor : library Sim.world :=
  {| S3Client := unit;
     Connection := unit;
     Cursor := unit;
     File := Sim.file_data;
     os_makedirs := Sim.makedirs;
     logging_basicConfig := Sim.basicConfig;
     config_read := Sim.read_config;
     boto3_client := Sim.client;
     s3_upload_file := Sim.upload_file;
     s3_download_file := Sim.download_file;
     pd_read_csv := Sim.read_csv;
     df_to_csv := Sim.to_csv;
     file_open := Sim.open;
     file_close := fun _ w => w;
     pg_connect := Sim.connect;
     conn_cursor := fun _ w =>
       (Raise (ExternalError "OperationalError" "server closed the connection"),
        w);
     cursor_execute := Sim.execute;
     cursor_copy_expert := Sim.copy_expert;
     conn_commit := Sim.commit;
     cursor_close := Sim.close_cursor;
     conn_close := Sim.close_conn |}.

(* ===================================================================== *)
(** ** Strings and patterns *)
(* ===================================================================== *)

#[local] Arguments String.append !s1 s2 : simpl nomatch.

Lemma append_nil_r (s : string) : s +:+ "" = s.
Proof.
  induction s as [|c s IH]; simpl; [reflexivity | now f_equal].
Qed.

Lemma append_assoc (s1 s2 s3 : string) :
  (s1 +:+ s2) +:+ s3 = s1 +:+ (s2 +:+ s3).
Proof.
  induction s1 as [|c s1 IH]; simpl; [reflexivity | now f_equal].
Qed.

Lemma one_char_spec (p : ascii -> bool) (s : string) (f : Re.found) :
  In f (Re.one_char p s) <->
  exists c, p c = true /\ f = Re.Found (String c "") [] (Re.remainder f)
            /\ s = String c (Re.remainder f).
Proof.
  unfold Re.one_char. split.
  - destruct s as [|a rest]; simpl; [tauto|].
    destruct (p a) eqn:Hp; simpl; [|tauto].
    intros [<- | []]. exists a. simpl. auto.
  - intros (c & Hp & Hf & ->). rewrite Hp. left. now symmetry.
Qed.

(** The matcher finds exactly the ways of matching that the pattern
    allows. *)
Lemma run_matches (r : Re.regex) :
  forall s f,
    In f (Re.run r s) <->
    matches r (Re.consumed f) (Re.groupdict f)
    /\ s = Re.consumed f +:+ Re.remainder f.
Proof.
  induction r as [c | lo hi | | r1 IH1 r2 IH2 | r1 IH1 r2 IH2 | name r IH];
    intros s f; simpl.
  - rewrite one_char_spec. split.
    + intros (a & Hp & -> & ->). apply Ascii.eqb_eq in Hp as <-.
      simpl. split; [constructor | reflexivity].
    + destruct f as [t g rest]; simpl. intros [Hm ->].
      inversion Hm; subst. exists c. rewrite Ascii.eqb_refl. auto.
  - rewrite one_char_spec. split.
    + intros (a & Hp & -> & ->). simpl. split; [now constructor | reflexivity].
    + destruct f as [t g rest]; simpl. intros [Hm ->].
      inversion Hm; subst. eauto.
  - rewrite one_char_spec. split.
    + intros (a & Hp & -> & ->). simpl. split; [now constructor | reflexivity].
    + destruct f as [t g rest]; simpl. intros [Hm ->].
      inversion Hm; subst. eauto.
  - rewrite in_flat_map. split.
    + intros (f1 & H1 & H2). apply in_map_iff in H2 as (f2 & <- & H2).
      apply IH1 in H1 as [M1 ->]. apply IH2 in H2 as [M2 E2]. simpl.
      split; [now constructor|]. rewrite E2. now rewrite append_assoc.
    + destruct f as [t g rest]; simpl. intros [Hm ->].
      inversion Hm; subst.
      exists (Re.Found t1 g1 (t2 +:+ rest)). split.
      * apply IH1. simpl. split; [assumption | apply append_assoc].
      * apply in_map_iff. exists (Re.Found t2 g2 rest). split; [reflexivity|].
        apply IH2. simpl. auto.
  - rewrite in_app_iff, IH1, IH2. split.
    + intros [[M E] | [M E]]; split; auto using matches.
    + intros [M E]. inversion M; subst; auto.
  - rewrite in_map_iff. split.
    + intros (f1 & <- & H1). apply IH in H1 as [M E]. simpl.
      split; [now constructor | assumption].
    + destruct f as [t g rest]; simpl. intros [Hm ->].
      inversion Hm; subst. exists (Re.Found t g0 rest). split; [reflexivity|].
      apply IH. simpl. auto.
Qed.

(** A character of a class is one of the characters of its range. *)
Lemma in_range_chars (lo hi c : ascii) :
  Re.in_range lo hi c = true -> In c (chars_between lo hi).
Proof.
  unfold Re.in_range, chars_between. intros H.
  apply andb_true_iff in H as [H1 H2].
  apply N.leb_le in H1, H2.
  apply in_map_iff.
  exists (N.to_nat (N_of_ascii c - N_of_ascii lo)). split.
  - rewrite N2Nat.id.
    replace (N_of_ascii lo + (N_of_ascii c - N_of_ascii lo))%N
      with (N_of_ascii c) by lia.
    apply ascii_N_embedding.
  - apply in_seq. lia.
Qed.

Lemma z_range_In (lo : Z) (n : nat) (x : Z) :
  lo <= x < lo + Z.of_nat n -> In x (z_range lo n).
Proof.
  intros H. unfold z_range. apply in_map_iff.
  exists (Z.to_nat (x - lo)). split; [lia | apply in_seq; lia].
Qed.

(* ===================================================================== *)
(** ** The format '%d-%m-%y' *)
(* ===================================================================== *)

(** Case analysis on a character known to lie in a class. *)
Ltac enum_chars :=
  repeat match goal with
  | H : Re.is_decimal _ = true |- _ => unfold Re.is_decimal in H
  | H : Re.in_range _ _ ?c = true |- _ =>
      apply in_range_chars in H; cbv in H;
      repeat (destruct H as [H | H]; [subst c|]); [idtac .. | contradiction H]
  end.

(** Inversion of a match along the structure of the pattern. *)
Ltac invert_matches :=
  repeat match goal with
  | H : matches (Re.Grp _ _) _ _ |- _ => inversion H; clear H; subst
  | H : matches (Re.Alt _ _) _ _ |- _ => inversion H; clear H; subst
  | H : matches (Re.Cat _ _) _ _ |- _ => inversion H; clear H; subst
  | H : matches (Re.Chr _) _ _ |- _ => inversion H; clear H; subst
  | H : matches (Re.Rng _ _) _ _ |- _ => inversion H; clear H; subst
  | H : matches Re.Dec _ _ |- _ => inversion H; clear H; subst
  end.

(** A concrete text is matched when the matcher finds it. *)
Ltac matches_by_run :=
  match goal with
  | |- matches ?r ?t ?g =>
      apply (proj1 (run_matches r t (Re.Found t g "")));
      vm_compute; repeat (first [left; reflexivity | right])
  end.

Ltac pick_text :=
  first [ left; reflexivity
        | right; split; [lia | first [reflexivity | left; reflexivity
                                      | right; reflexivity]] ].

Lemma re_d_sound (t : string) (g : list (string * string)) :
  matches re_d t g ->
  g = [("d", t)] /\ exists d, py_int t = inr d /\ day_text d t.
Proof.
  unfold re_d. intros H. invert_matches; enum_chars; simpl;
    (split; [reflexivity|]); eexists;
    (split; [vm_compute; reflexivity|]);
    (split; [lia | pick_text]).
Qed.

Lemma re_m_sound (t : string) (g : list (string * string)) :
  matches re_m t g ->
  g = [("m", t)] /\ exists m, py_int t = inr m /\ month_text m t.
Proof.
  unfold re_m. intros H. invert_matches; enum_chars; simpl;
    (split; [reflexivity|]); eexists;
    (split; [vm_compute; reflexivity|]);
    (split; [lia | pick_text]).
Qed.

Lemma re_y_sound (t : string) (g : list (string * string)) :
  matches re_y t g ->
  g = [("y", t)] /\ exists y, py_int t = inr y /\ year_text y t.
Proof.
  unfold re_y. intros H. invert_matches; enum_chars; simpl;
    (split; [reflexivity|]); eexists;
    (split; [vm_compute; reflexivity|]);
    (split; [lia | reflexivity]).
Qed.

Lemma re_d_complete (d : Z) (t : string) :
  day_text d t ->
  matches re_d t [("d", t)] /\ py_int t = inr d /\ no_hyphen t = true.
Proof.
  intros [Hd Ht].
  assert (Hin : In d (z_range 1 31)) by (apply z_range_In; lia).
  cbv in Hin.
  repeat (destruct Hin as [Hin | Hin]; [subst d|]); [idtac .. | contradiction Hin];
    (destruct Ht as [-> | [Hle [-> | ->]]]; [| try lia ..]);
    (split; [matches_by_run | split; reflexivity]).
Qed.

Lemma re_m_complete (m : Z) (t : string) :
  month_text m t ->
  matches re_m t [("m", t)] /\ py_int t = inr m /\ no_hyphen t = true.
Proof.
  intros [Hm Ht].
  assert (Hin : In m (z_range 1 12)) by (apply z_range_In; lia).
  cbv in Hin.
  repeat (destruct Hin as [Hin | Hin]; [subst m|]); [idtac .. | contradiction Hin];
    (destruct Ht as [-> | [Hle ->]]; [| try lia]);
    (split; [matches_by_run | split; reflexivity]).
Qed.

Lemma re_y_complete (y : Z) (t : string) :
  year_text y t ->
  matches re_y t [("y", t)] /\ py_int t = inr y.
Proof.
  intros [Hy ->].
  assert (Hin : In y (z_range 0 100)) by (apply z_range_In; lia).
  cbv in Hin.
  repeat (destruct Hin as [Hin | Hin]; [subst y|]); [idtac .. | contradiction Hin];
    (split; [matches_by_run | reflexivity]).
Qed.

Lemma format_regex_sound (t : string) (g : list (string * string)) :
  matches format_regex t g ->
  exists td tm ty d m y,
    t = td +:+ "-" +:+ tm +:+ "-" +:+ ty
    /\ g = [("d", td); ("m", tm); ("y", ty)]
    /\ day_text d td /\ month_text m tm /\ year_text y ty
    /\ py_int td = inr d /\ py_int tm = inr m /\ py_int ty = inr y.
Proof.
  unfold format_regex. intros H.
  inversion H as [| | | ? ? td r1 gd g1 Hd H1 | | |]; subst; clear H.
  inversion H1 as [| | | ? ? h1 r2 gh1 g2 Hh1 H2 | | |]; subst; clear H1.
  inversion H2 as [| | | ? ? tm r3 gm g3 Hm H3 | | |]; subst; clear H2.
  inversion H3 as [| | | ? ? h2 ty gh2 gy Hh2 Hy | | |]; subst; clear H3.
  inversion Hh1; subst. inversion Hh2; subst.
  apply re_d_sound in Hd as [-> (d & Id & Td)].
  apply re_m_sound in Hm as [-> (m & Im & Tm)].
  apply re_y_sound in Hy as [-> (y & Iy & Ty)].
  exists td, tm, ty, d, m, y. simpl. auto 10.
Qed.

Lemma format_regex_complete (d m y : Z) (td tm ty : string) :
  day_text d td -> month_text m tm -> year_text y ty ->
  matches format_regex (td +:+ "-" +:+ tm +:+ "-" +:+ ty)
          [("d", td); ("m", tm); ("y", ty)].
Proof.
  intros Hd Hm Hy.
  apply re_d_complete in Hd as [Hd _].
  apply re_m_complete in Hm as [Hm _].
  apply re_y_complete in Hy as [Hy _].
  change (matches format_regex
            (td +:+ (String "-" "" +:+ (tm +:+ (String "-" "" +:+ ty))))
            ([("d", td)] ++ ([] ++ ([("m", tm)] ++ ([] ++ [("y", ty)]))))).
  unfold format_regex.
  repeat (apply matches_cat); try apply matches_chr; assumption.
Qed.

(** A text without hyphen that is followed by a hyphen is determined by
    the whole. *)
Lemma split_at_hyphen (a a' b b' : string) :
  no_hyphen a = true -> no_hyphen a' = true ->
  a +:+ "-" +:+ b = a' +:+ "-" +:+ b' -> a = a' /\ b = b'.
Proof.
  revert a'. induction a as [|c a IH]; intros [|c' a']; simpl.
  - intros _ _ E. now inversion E.
  - intros _ H E. inversion E; subst. discriminate H.
  - intros H _ E. inversion E; subst. discriminate H.
  - intros H H' E. inversion E; subst.
    apply andb_true_iff in H as [_ H]. apply andb_true_iff in H' as [_ H'].
    destruct (IH a' H H' H2) as [-> ->]. auto.
Qed.

Lemma format_text_app (td tm ty rest : string) :
  (td +:+ "-" +:+ tm +:+ "-" +:+ ty) +:+ rest =
  td +:+ "-" +:+ tm +:+ "-" +:+ (ty +:+ rest).
Proof.
  rewrite append_assoc. simpl. rewrite append_assoc. reflexivity.
Qed.

(** The match of a text written in the format is the whole text: the
    matcher has no other way. *)
Lemma format_regex_unique (d m y : Z) (s : string) (f : Re.found) :
  dmy_text d m y s -> In f (Re.run format_regex s) ->
  exists td tm ty,
    day_text d td /\ month_text m tm /\ year_text y ty
    /\ f = Re.Found s [("d", td); ("m", tm); ("y", ty)] "".
Proof.
  intros (td & tm & ty & Hd & Hm & Hy & ->) Hf.
  apply run_matches in Hf as [Hf E].
  apply format_regex_sound in Hf
    as (td' & tm' & ty' & d' & m' & y' & Ec & Eg & Hd' & Hm' & Hy' & _).
  destruct f as [t g rest];
    cbn [Re.consumed Re.groupdict Re.remainder] in Ec, Eg, E; subst t g.
  rewrite format_text_app in E.
  pose proof (re_d_complete _ _ Hd) as (_ & _ & Nd).
  pose proof (re_d_complete _ _ Hd') as (_ & _ & Nd').
  pose proof (re_m_complete _ _ Hm) as (_ & _ & Nm).
  pose proof (re_m_complete _ _ Hm') as (_ & _ & Nm').
  destruct (split_at_hyphen _ _ _ _ Nd Nd' E) as [<- E1].
  destruct (split_at_hyphen _ _ _ _ Nm Nm' E1) as [<- E2].
  destruct Hy as [Ry Ey], Hy' as [Ry' Ey'].
  unfold pad2 in Ey, Ey'. subst ty ty'. simpl in E2.
  inversion E2 as [[E3 E4 E5]].
  exists td, tm, (pad2 y).
  split; [exact Hd|]. split; [exact Hm|]. split; [now split|].
  reflexivity.
Qed.

Lemma century_range (y : Z) :
  0 <= y <= 99 -> 1969 <= century y <= 2068 /\ century y mod 100 = y.
Proof.
  intros H. unfold century. destruct (Z.leb_spec y 68).
  - split; [lia|]. replace (y + 2000) with (y + 20 * 100) by lia.
    rewrite Z.mod_add by lia. apply Z.mod_small. lia.
  - split; [lia|]. replace (y + 1900) with (y + 19 * 100) by lia.
    rewrite Z.mod_add by lia. apply Z.mod_small. lia.
Qed.

Lemma check_date_fields_inr (y m d : Z) (dt : datetime) :
  check_date_fields y m d = inr dt ->
  calendar_date y m d /\ dt = Datetime y m d.
Proof.
  unfold check_date_fields, calendar_date.
  destruct ((1 <=? y) && (y <=? 9999)); simpl; [|discriminate].
  destruct ((1 <=? m) && (m <=? 12)) eqn:Hm; simpl; [|discriminate].
  destruct ((1 <=? d) && (d <=? days_in_month y m)) eqn:Hd; simpl;
    [|discriminate].
  intros [= <-]. apply andb_true_iff in Hm as [?%Z.leb_le ?%Z.leb_le].
  apply andb_true_iff in Hd as [?%Z.leb_le ?%Z.leb_le]. auto.
Qed.

Lemma check_date_fields_ok (y m d : Z) :
  1 <= y <= 9999 -> calendar_date y m d ->
  check_date_fields y m d = inr (Datetime y m d).
Proof.
  intros Hy [Hm Hd]. unfold check_date_fields.
  replace ((1 <=? y) && (y <=? 9999)) with true
    by (symmetry; apply andb_true_iff; split; apply Z.leb_le; lia).
  replace ((1 <=? m) && (m <=? 12)) with true
    by (symmetry; apply andb_true_iff; split; apply Z.leb_le; lia).
  replace ((1 <=? d) && (d <=? days_in_month y m)) with true
    by (symmetry; apply andb_true_iff; split; apply Z.leb_le; lia).
  reflexivity.
Qed.

(** What [strptime] accepts under '%d-%m-%y': the texts written in the
    format whose date exists, each read as the date it names. *)
Lemma strptime_str_valid (d m y : Z) (s : string) :
  dmy_text d m y s -> calendar_date (century y) m d ->
  strptime_str s = inr (Datetime (century y) m d).
Proof.
  intros Ht Hc. unfold strptime_str, Re.re_match.
  destruct (Re.run format_regex s) as [|f l] eqn:E.
  - exfalso. destruct Ht as (td & tm & ty & Hd & Hm & Hy & ->).
    pose proof (format_regex_complete _ _ _ _ _ _ Hd Hm Hy) as M.
    assert (Hin : In (Re.Found (td +:+ "-" +:+ tm +:+ "-" +:+ ty)
                          [("d", td); ("m", tm); ("y", ty)] "")
                     (Re.run format_regex (td +:+ "-" +:+ tm +:+ "-" +:+ ty))).
    { apply run_matches. simpl. split; [exact M|].
      symmetry. apply append_nil_r. }
    rewrite E in Hin. destruct Hin.
  - assert (Hf : In f (Re.run format_regex s)) by (rewrite E; now left).
    destruct (format_regex_unique _ _ _ _ _ Ht Hf)
      as (td & tm & ty & Hd & Hm & Hy & ->).
    apply re_d_complete in Hd as (_ & Id & _).
    apply re_m_complete in Hm as (_ & Im & _).
    pose proof Hy as [Ry _].
    apply re_y_complete in Hy as (_ & Iy).
    simpl. unfold found_group. simpl. rewrite Id. simpl. rewrite Im. simpl.
    rewrite Iy. simpl. apply check_date_fields_ok; [|exact Hc].
    pose proof (century_range y Ry). lia.
Qed.

Lemma strptime_str_inv (s : string) (dt : datetime) :
  strptime_str s = inr dt ->
  exists d m y,
    dmy_text d m y s /\ calendar_date (century y) m d
    /\ dt = Datetime (century y) m d.
Proof.
  unfold strptime_str, Re.re_match.
  destruct (Re.run format_regex s) as [|f l] eqn:E; simpl; [discriminate|].
  assert (Hf : In f (Re.run format_regex s)) by (rewrite E; now left).
  apply run_matches in Hf as [Hf Es].
  apply format_regex_sound in Hf
    as (td & tm & ty & d & m & y & Ec & Eg & Hd & Hm & Hy & Id & Im & Iy).
  destruct (String.eqb_spec (Re.remainder f) "") as [Er|]; simpl;
    [|discriminate].
  unfold found_group. rewrite Eg. simpl. rewrite Id. simpl. rewrite Im. simpl.
  rewrite Iy. simpl. intros Hc. apply check_date_fields_inr in Hc as [Hc ->].
  exists d, m, y. split; [|auto].
  exists td, tm, ty. rewrite Es, Er, append_nil_r, Ec. auto.
Qed.


(* ===================================================================== *)
(** ** The Date Normalizer *)
(* ===================================================================== *)

(** The run of [convert_date_string] in terms of [strptime]. *)
Lemma convert_date_string_run {W : Type} (v : pyval) (st : state W) :
  convert_date_string v st =
  match strptime v with
  | inr date_obj => (Return (PyStr (strftime date_obj)), st)
  | inl e =>
      (Return PyNone,
       State (world st)
             (log st ++ [LogError "Error converting date string: " e])
             (calls st))
  end.
Proof.
  unfold convert_date_string, try_except, bind, of_sum.
  destruct (strptime v); reflexivity.
Qed.

(** C1. A date string in valid day-month-2digityear format is returned as
    the same day and month of the four-digit year, written
    year-month-day; the year is the one of 1969..2068 that ends in the two
    digits given.  Nothing is logged. *)
Theorem valid_date_is_normalized {W : Type} (st : state W) (s : string)
    (d m y : Z) :
  dmy_text d m y s -> calendar_date (century y) m d ->
  convert_date_string (PyStr s) st
    = (Return (PyStr (iso_text (century y) m d)), st)
  /\ 1969 <= century y <= 2068 /\ century y mod 100 = y.
Proof.
  intros Ht Hc. split.
  - rewrite convert_date_string_run. simpl.
    rewrite (strptime_str_valid _ _ _ _ Ht Hc). reflexivity.
  - destruct Ht as (_ & _ & ty & _ & _ & [Ry _] & _).
    apply century_range, Ry.
Qed.

(** The example of the specification: "05-03-21" gives "2021-03-05". *)
Lemma valid_date_example :
  dmy_text 5 3 21 "05-03-21" /\ calendar_date (century 21) 3 5
  /\ convert_date_string (PyStr "05-03-21") (initial_state tt)
     = (Return (PyStr "2021-03-05"), initial_state tt).
Proof.
  assert (Ht : dmy_text 5 3 21 "05-03-21").
  { exists "05", "03", "21". unfold day_text, month_text, year_text.
    repeat split; try lia; left; reflexivity. }
  assert (Hc : calendar_date (century 21) 3 5).
  { unfold calendar_date.
    change (days_in_month (century 21) 3) with 31. lia. }
  split; [exact Ht|]. split; [exact Hc|].
  exact (proj1 (valid_date_is_normalized (initial_state tt) "05-03-21" 5 3 21
                  Ht Hc)).
Defined.



(** C10. On a value that is not a string, [convert_date_string] returns
    [None]: the TypeError of [strptime] is caught and logged. *)
Theorem non_string_gives_none {W : Type} (st : state W) (v : pyval) :
  is_str v = false ->
  convert_date_string v st
  = (Return PyNone,
     State (world st)
           (log st ++ [LogError "Error converting date string: "
                                (TypeError_strptime_arg 0 (type_name v))])
           (calls st)).
Proof.
  intros Hv. rewrite convert_date_string_run.
  destruct v; try discriminate Hv; reflexivity.
Qed.

(** The cells that [pd.read_csv] leaves for an empty field (NaN), and
    [None]. *)
Lemma non_string_example :
  (is_str (PyFloat FNaN) = false
   /\ convert_date_string (PyFloat FNaN) (initial_state tt)
      = (Return PyNone,
         State tt [LogError "Error converting date string: "
                            (TypeError_strptime_arg 0 "float")] []))
  /\ (is_str PyNone = false
      /\ convert_date_string PyNone (initial_state tt)
         = (Return PyNone,
            State tt [LogError "Error converting date string: "
                               (TypeError_strptime_arg 0 "NoneType")] [])).
Proof.
  split; (split; [reflexivity|]).
  - exact (non_string_gives_none (initial_state tt) (PyFloat FNaN) eq_refl).
  - exact (non_string_gives_none (initial_state tt) PyNone eq_refl).
Defined.

(* ===================================================================== *)
(** ** Statements and stages *)
(* ===================================================================== *)

Lemma invoke_run {W A : Type} (c : call) (op : W -> outcome A * W)
    (st : state W) (r : outcome A) (w' : W) :
  op (world st) = (r, w') ->
  invoke c op st = (r, State w' (log st) (calls st ++ [c])).
Proof.
  intros E. unfold invoke. rewrite E. reflexivity.
Qed.

Lemma bind_invoke {W A B : Type} (c : call) (op : W -> outcome A * W)
    (k : A -> M W B) (st : state W) (a : A) (w' : W) :
  op (world st) = (Return a, w') ->
  bind (invoke c op) k st = k a (State w' (log st) (calls st ++ [c])).
Proof.
  intros E. unfold bind. now rewrite (invoke_run _ _ _ _ _ E).
Qed.

Lemma bind_invoke_raise {W A B : Type} (c : call) (op : W -> outcome A * W)
    (k : A -> M W B) (st : state W) (e : exn) (w' : W) :
  op (world st) = (Raise e, w') ->
  bind (invoke c op) k st = (Raise e, State w' (log st) (calls st ++ [c])).
Proof.
  intros E. unfold bind. now rewrite (invoke_run _ _ _ _ _ E).
Qed.

Lemma stages_of_app (cs1 cs2 : list call) :
  stages_of (cs1 ++ cs2) = stages_of cs1 ++ stages_of cs2.
Proof.
  unfold stages_of. apply omap_app.
Qed.

Lemma completes_bind {W : Type} (m1 m2 : M W unit) (st : state W)
    (l1 l2 : list stage) :
  completes m1 st l1 -> (forall st', completes m2 st' l2) ->
  completes (m1 ;; m2) st (l1 ++ l2).
Proof.
  intros (st1 & cs1 & E1 & C1 & S1) H2.
  destruct (H2 st1) as (st2 & cs2 & E2 & C2 & S2).
  exists st2, (cs1 ++ cs2). unfold bind. rewrite E1. split; [exact E2|].
  split.
  - rewrite C2, C1. now rewrite <- app_assoc.
  - rewrite stages_of_app. now rewrite S1, S2.
Qed.

(* --------------------------------------------------------------------- *)
(** *** Columns of a frame *)

Lemma find_column_In (name : string) (cols : list (string * list pyval))
    (v : list pyval) :
  find_column name cols = Some v -> In (name, v) cols.
Proof.
  induction cols as [|[k x] cols IH]; simpl; [discriminate|].
  destruct (String.eqb_spec k name) as [->|].
  - intros [= ->]. now left.
  - intros H. right. auto.
Qed.

Lemma In_find_column (name : string) (cols : list (string * list pyval)) :
  In name (map fst cols) -> exists v, find_column name cols = Some v.
Proof.
  induction cols as [|[k x] cols IH]; simpl; [tauto|].
  destruct (String.eqb_spec k name) as [->|]; [eauto|].
  intros [E | H]; [contradiction | auto].
Qed.

(** With distinct labels, a label names one column. *)
Lemma find_column_NoDup (name : string) (cols : list (string * list pyval))
    (v v' : list pyval) :
  NoDup (map fst cols) -> find_column name cols = Some v ->
  In (name, v') cols -> v' = v.
Proof.
  induction cols as [|[k x] cols IH]; simpl; [discriminate|].
  intros Hnd. inversion Hnd as [|? ? Hk Hnd']; subst.
  destruct (String.eqb_spec k name) as [->|Hne].
  - intros [= ->] [[= ->] | Hin]; [reflexivity|].
    exfalso. apply Hk. apply list_elem_of_In, in_map_iff.
    exists (name, v'). auto.
  - intros Hf [[= -> _] | Hin]; [contradiction | auto].
Qed.

Lemma set_column_found (name : string) (values v : list pyval)
    (cols : list (string * list pyval)) :
  find_column name cols = Some v ->
  set_column name values cols =
  map (fun c => if String.eqb (fst c) name then (fst c, values) else c) cols.
Proof.
  intros H. unfold set_column. now rewrite H.
Qed.

Lemma find_column_set_other (name name' : string) (values : list pyval)
    (cols : list (string * list pyval)) :
  name <> name' ->
  find_column name'
    (map (fun c => if String.eqb (fst c) name then (fst c, values) else c) cols)
  = find_column name' cols.
Proof.
  intros Hne. induction cols as [|[k x] cols IH]; simpl; [reflexivity|].
  destruct (String.eqb_spec k name) as [->|]; simpl.
  - destruct (String.eqb_spec name name'); [contradiction | exact IH].
  - destruct (String.eqb_spec k name'); [reflexivity | exact IH].
Qed.


(** The two assignments of [preprocess_csv] on a frame with distinct
    labels give the frame of the specification. *)
Lemma setitem_dates (df : DataFrame) (jd lp : list pyval) :
  NoDup (labels df) ->
  find_column "Join Date" (series df) = Some jd ->
  find_column "Last Payment Date" (series df) = Some lp ->
  find_column "Last Payment Date"
    (series (setitem df "Join Date" (map date_normalizer jd))) = Some lp
  /\ setitem (setitem df "Join Date" (map date_normalizer jd))
             "Last Payment Date" (map date_normalizer lp)
     = normalize_frame df.
Proof.
  intros Hnd Hjd Hlp.
  assert (Hlp' : find_column "Last Payment Date"
            (series (setitem df "Join Date" (map date_normalizer jd)))
          = Some lp).
  { simpl. rewrite (set_column_found _ _ _ _ Hjd).
    rewrite find_column_set_other; [exact Hlp | discriminate]. }
  split; [exact Hlp'|].
  unfold setitem at 1. rewrite (set_column_found _ _ _ _ Hlp').
  unfold normalize_frame. simpl. f_equal.
  rewrite (set_column_found _ _ _ _ Hjd), map_map.
  apply map_ext_in. intros [k x] Hin. unfold is_date_column. simpl.
  destruct (String.eqb_spec k "Join Date") as [->|Hj]; simpl.
  - now rewrite (find_column_NoDup _ _ _ _ Hnd Hjd Hin).
  - destruct (String.eqb_spec k "Last Payment Date") as [->|Hl];
      [|reflexivity].
    now rewrite (find_column_NoDup _ _ _ _ Hnd Hlp Hin).
Qed.

Lemma normalize_frame_labels (df : DataFrame) :
  labels (normalize_frame df) = labels df.
Proof.
  unfold labels, normalize_frame. simpl. rewrite map_map.
  apply map_ext. intros c. now destruct (is_date_column (fst c)).
Qed.

Lemma normalize_frame_well_formed (df : DataFrame) :
  well_formed df -> well_formed (normalize_frame df).
Proof.
  intros [Hlen Hnd]. split.
  - unfold normalize_frame. simpl. apply List.Forall_forall.
    intros c Hin. apply in_map_iff in Hin as (c0 & <- & Hin0).
    rewrite List.Forall_forall in Hlen. specialize (Hlen c0 Hin0).
    destruct (is_date_column (fst c0)); simpl; [|exact Hlen].
    now rewrite length_map.
  - now rewrite normalize_frame_labels.
Qed.

Lemma normalize_frame_find (df : DataFrame) (name : string)
    (cells : list pyval) :
  find_column name (series df) = Some cells ->
  find_column name (series (normalize_frame df))
  = Some (if is_date_column name then map date_normalizer cells else cells).
Proof.
  unfold normalize_frame. simpl.
  induction (series df) as [|[k x] cols IH]; simpl; [discriminate|].
  destruct (is_date_column k) eqn:Hk; simpl;
    destruct (String.eqb_spec k name) as [->|]; auto.
  - intros [= ->]. now rewrite Hk.
  - intros [= ->]. now rewrite Hk.
Qed.

Section PipelineFacts.

Context {W : Type} (L : library W).

(** The run of [create_table_if_not_exists], by the outcome of its two
    calls. *)
Lemma create_table_if_not_exists_run (conn : Connection L)
    (cursor : Cursor L) (st : state W) :
  create_table_if_not_exists L conn cursor st =
  match cursor_execute L cursor create_table_statement (world st) with
  | (Raise e, w1) =>
      (Return tt,
       State w1 (log st ++ [LogError "Error creating table in PostgreSQL: " e])
             (calls st ++ [Call_execute create_table_statement]))
  | (Return _, w1) =>
      match conn_commit L conn w1 with
      | (Raise e, w2) =>
          (Return tt,
           State w2
             (log st ++ [LogError "Error creating table in PostgreSQL: " e])
             (calls st ++ [Call_execute create_table_statement; Call_commit]))
      | (Return _, w2) =>
          (Return tt,
           State w2
             (log st ++ [LogInfo "Table created or already exists in PostgreSQL"])
             (calls st ++ [Call_execute create_table_statement; Call_commit]))
      end
  end.
Proof.
  unfold create_table_if_not_exists, try_except, bind, invoke, logging_info,
    logging_error.
  destruct (cursor_execute L cursor create_table_statement (world st))
    as [[[]|e] w1]; simpl; [|reflexivity].
  destruct (conn_commit L conn w1) as [[[]|e] w2]; simpl;
    rewrite <- app_assoc; reflexivity.
Qed.

Lemma create_table_if_not_exists_completes (conn : Connection L)
    (cursor : Cursor L) (st : state W) :
  completes (create_table_if_not_exists L conn cursor) st [].
Proof.
  unfold completes. rewrite create_table_if_not_exists_run.
  destruct (cursor_execute L cursor create_table_statement (world st))
    as [[[]|e] w1].
  - destruct (conn_commit L conn w1) as [[[]|e] w2]; eauto.
  - eauto.
Qed.

(** The run of [upload_file_to_s3], by the outcome of the SDK call. *)
Lemma upload_file_to_s3_run (g : globals L) (local_file_path s3_key : string)
    (st : state W) :
  upload_file_to_s3 L g local_file_path s3_key st =
  match s3_upload_file L (s3_client g) local_file_path (s3_bucket_name g)
                       s3_key (world st) with
  | (Return _, w') =>
      (Return tt,
       State w'
         (log st ++ [LogInfo ("Uploaded " +:+ local_file_path +:+ " to S3 as "
                              +:+ s3_key)])
         (calls st ++ [Call_upload_file local_file_path (s3_bucket_name g)
                                        s3_key]))
  | (Raise e, w') =>
      (Return tt,
       State w'
         (log st ++ [LogError ("Error uploading " +:+ local_file_path
                               +:+ " to S3: ") e])
         (calls st ++ [Call_upload_file local_file_path (s3_bucket_name g)
                                        s3_key]))
  end.
Proof.
  unfold upload_file_to_s3, try_except, bind, invoke, logging_info,
    logging_error.
  destruct (s3_upload_file L (s3_client g) local_file_path (s3_bucket_name g)
              s3_key (world st)) as [[[]|e] w']; reflexivity.
Qed.

(** The run of [fetch_csv_from_s3], by the outcome of the SDK call. *)
Lemma fetch_csv_from_s3_run (g : globals L) (s3_key local_path : string)
    (st : state W) :
  fetch_csv_from_s3 L g s3_key local_path st =
  match s3_download_file L (s3_client g) (s3_bucket_name g) s3_key local_path
                         (world st) with
  | (Return _, w') =>
      (Return tt,
       State w'
         (log st ++ [LogInfo ("Fetched " +:+ s3_key +:+ " from S3 to "
                              +:+ local_path)])
         (calls st ++ [Call_download_file (s3_bucket_name g) s3_key local_path]))
  | (Raise e, w') =>
      (Return tt,
       State w'
         (log st ++ [LogError ("Error fetching " +:+ s3_key +:+ " from S3: ") e])
         (calls st ++ [Call_download_file (s3_bucket_name g) s3_key local_path]))
  end.
Proof.
  unfold fetch_csv_from_s3, try_except, bind, invoke, logging_info,
    logging_error.
  destruct (s3_download_file L (s3_client g) (s3_bucket_name g) s3_key
              local_path (world st)) as [[[]|e] w']; reflexivity.
Qed.

Lemma upload_raw_completes (g : globals L) (st : state W) :
  completes (upload_file_to_s3 L g csv_filename s3_key_uncleaned) st
            [Upload_Raw].
Proof.
  unfold completes. rewrite upload_file_to_s3_run.
  destruct (s3_upload_file L (s3_client g) csv_filename (s3_bucket_name g)
              s3_key_uncleaned (world st)) as [[[]|e] w']; eauto.
Qed.

Lemma upload_clean_completes (g : globals L) (st : state W) :
  completes (upload_file_to_s3 L g preprocessed_csv_path s3_key_cleaned) st
            [Upload_Clean].
Proof.
  unfold completes. rewrite upload_file_to_s3_run.
  destruct (s3_upload_file L (s3_client g) preprocessed_csv_path
              (s3_bucket_name g) s3_key_cleaned (world st)) as [[[]|e] w'];
    eauto.
Qed.

Lemma fetch_raw_completes (g : globals L) (s3_key local_path : string)
    (st : state W) :
  completes (fetch_csv_from_s3 L g s3_key local_path) st [Fetch_Raw].
Proof.
  unfold completes. rewrite fetch_csv_from_s3_run.
  destruct (s3_download_file L (s3_client g) (s3_bucket_name g) s3_key
              local_path (world st)) as [[[]|e] w']; eauto.
Qed.

(* --------------------------------------------------------------------- *)
(** *** The CSV Preprocessor *)

(** [apply] with the Date Normalizer: the cells are converted in row
    order, and one record is logged for each cell that fails. *)
Lemma series_apply_convert (cells : list pyval) (st : state W) :
  series_apply convert_date_string cells st =
  (Return (map date_normalizer cells),
   State (world st) (log st ++ date_errors cells) (calls st)).
Proof.
  revert st. induction cells as [|v cells IH]; intros st; simpl.
  - unfold ret. rewrite app_nil_r. now destruct st.
  - unfold bind. rewrite convert_date_string_run. unfold date_normalizer.
    destruct (strptime v) as [e|dt]; rewrite IH; simpl;
      rewrite <- ?app_assoc; reflexivity.
Qed.

(** The run of [preprocess_csv] once the frame is read and has the two
    date columns, by the outcome of [to_csv]. *)
Lemma preprocess_csv_read (input_file output_file : string) (st : state W)
    (df : DataFrame) (w1 : W) (jd lp : list pyval) :
  pd_read_csv L input_file (world st) = (Return df, w1) ->
  find_column "Join Date" (series df) = Some jd ->
  find_column "Last Payment Date"
    (series (setitem df "Join Date" (map date_normalizer jd))) = Some lp ->
  let out :=
    setitem (setitem df "Join Date" (map date_normalizer jd))
            "Last Payment Date" (map date_normalizer lp) in
  preprocess_csv L input_file output_file st =
  match df_to_csv L out output_file w1 with
  | (Return _, w2) =>
      (Return tt,
       State w2
         (log st ++ date_errors jd ++ date_errors lp
          ++ [LogInfo ("Preprocessed " +:+ input_file +:+ " and saved as "
                       +:+ output_file)])
         (calls st ++ [Call_read_csv input_file; Call_to_csv out output_file]))
  | (Raise e, w2) =>
      (Return tt,
       State w2
         (log st ++ date_errors jd ++ date_errors lp
          ++ [LogError ("Error preprocessing " +:+ input_file +:+ ": ") e])
         (calls st ++ [Call_read_csv input_file; Call_to_csv out output_file]))
  end.
Proof.
  intros Hread Hjd Hlp out.
  unfold preprocess_csv, try_except.
  unfold bind at 1. rewrite (invoke_run _ _ _ _ _ Hread).
  unfold bind at 1. unfold getitem at 1. rewrite Hjd. unfold ret at 1.
  unfold bind at 1. rewrite series_apply_convert.
  unfold bind at 1. unfold getitem at 1. rewrite Hlp. unfold ret at 1.
  unfold bind at 1. rewrite series_apply_convert.
  unfold bind, invoke, logging_info, logging_error. simpl.
  fold out.
  destruct (df_to_csv L out output_file w1) as [[[]|e] w2]; simpl;
    rewrite <- ?app_assoc; reflexivity.
Qed.

(** Whatever the libraries do, [preprocess_csv] returns, after one call
    to [read_csv] and at most one to [to_csv]. *)
Lemma preprocess_csv_completes (input_file output_file : string)
    (st : state W) :
  completes (preprocess_csv L input_file output_file) st [Preprocess].
Proof.
  unfold completes.
  destruct (pd_read_csv L input_file (world st)) as [[df|e] w1] eqn:Hread.
  - destruct (find_column "Join Date" (series df)) as [jd|] eqn:Hjd.
    + destruct (find_column "Last Payment Date"
                  (series (setitem df "Join Date" (map date_normalizer jd))))
        as [lp|] eqn:Hlp.
      * rewrite (preprocess_csv_read _ output_file _ _ _ _ _ Hread Hjd Hlp).
        destruct (df_to_csv L _ output_file w1) as [[[]|e] w2]; eauto.
      * unfold preprocess_csv, try_except.
        unfold bind at 1. rewrite (invoke_run _ _ _ _ _ Hread).
        unfold bind at 1. unfold getitem at 1. rewrite Hjd. unfold ret at 1.
        unfold bind at 1. rewrite series_apply_convert.
        unfold bind at 1. unfold getitem at 1. rewrite Hlp.
        unfold raise, logging_error. simpl. eauto.
    + unfold preprocess_csv, try_except.
      unfold bind at 1. rewrite (invoke_run _ _ _ _ _ Hread).
      unfold bind at 1. unfold getitem at 1. rewrite Hjd.
      unfold raise, logging_error. simpl. eauto.
  - unfold preprocess_csv, try_except.
    unfold bind at 1. rewrite (invoke_run _ _ _ _ _ Hread).
    unfold logging_error. simpl. eauto.
Qed.

(* --------------------------------------------------------------------- *)
(** *** The bulk load *)

(** The run of the bulk load, by the outcome of opening the file, of the
    COPY and of the commit. *)
Lemma bulk_load_run (conn : Connection L) (cursor : Cursor L)
    (path : string) (st : state W) :
  let closed w := conn_close L conn (cursor_close L cursor w) in
  let failed e := LogError "Error inserting data into PostgreSQL: " e in
  let cleanup := [Call_cursor_close; Call_conn_close] in
  bulk_load L conn cursor path st =
  match file_open L path (world st) with
  | (Raise e, w1) =>
      (Return tt,
       State (closed w1) (log st ++ [failed e])
             (calls st ++ [Call_open path] ++ cleanup))
  | (Return f, w1) =>
      match cursor_copy_expert L cursor copy_statement f w1 with
      | (Raise e, w2) =>
          (Return tt,
           State (closed (file_close L f w2)) (log st ++ [failed e])
                 (calls st ++ [Call_open path; Call_copy_expert copy_statement;
                               Call_file_close] ++ cleanup))
      | (Return _, w2) =>
          match conn_commit L conn (file_close L f w2) with
          | (Raise e, w3) =>
              (Return tt,
               State (closed w3) (log st ++ [failed e])
                     (calls st ++ [Call_open path;
                                   Call_copy_expert copy_statement;
                                   Call_file_close; Call_commit] ++ cleanup))
          | (Return _, w3) =>
              (Return tt,
               State (closed w3)
                     (log st
                      ++ [LogInfo "Data inserted into PostgreSQL successfully"])
                     (calls st ++ [Call_open path;
                                   Call_copy_expert copy_statement;
                                   Call_file_close; Call_commit] ++ cleanup))
          end
      end
  end.
Proof.
  intros closed failed cleanup. subst closed failed cleanup.
  unfold bulk_load, try_finally, try_except, with_open, bind, invoke,
    invoke_total, logging_info, logging_error, try_finally.
  destruct (file_open L path (world st)) as [[f|e] w1]; simpl.
  - destruct (cursor_copy_expert L cursor copy_statement f w1)
      as [[[]|e] w2]; simpl.
    + destruct (conn_commit L conn (file_close L f w2)) as [[[]|e] w3]; simpl;
        rewrite <- ?app_assoc; reflexivity.
    + rewrite <- ?app_assoc; reflexivity.
  - rewrite <- ?app_assoc; reflexivity.
Qed.

Lemma bulk_load_completes (conn : Connection L) (cursor : Cursor L)
    (path : string) (st : state W) :
  completes (bulk_load L conn cursor path) st [Bulk_Load].
Proof.
  unfold completes. rewrite bulk_load_run.
  destruct (file_open L path (world st)) as [[f|e] w1]; [|eauto].
  destruct (cursor_copy_expert L cursor copy_statement f w1)
    as [[[]|e] w2]; [|eauto].
  destruct (conn_commit L conn (file_close L f w2)) as [[[]|e] w3]; eauto.
Qed.
(** C3. For a well-formed input with N data rows, [preprocess_csv] hands
    to [to_csv], for the output path, a frame with the same header and N
    rows, every column of which has N cells, and in which the columns
    Join Date and Last Payment Date hold the Date Normalizer's result for
    each cell. *)
Theorem preprocess_csv_rows_and_dates (input_file output_file : string)
    (st : state W) (df : DataFrame) (w1 : W) :
  pd_read_csv L input_file (world st) = (Return df, w1) ->
  well_formed df ->
  In "Join Date" (labels df) -> In "Last Payment Date" (labels df) ->
  exists st' out,
    preprocess_csv L input_file output_file st = (Return tt, st')
    /\ calls st' = calls st ++ [Call_read_csv input_file;
                                Call_to_csv out output_file]
    /\ nrows out = nrows df
    /\ labels out = labels df
    /\ Forall (fun c => length (snd c) = nrows df) (series out)
    /\ forall name cells,
         is_date_column name = true ->
         find_column name (series df) = Some cells ->
         find_column name (series out) = Some (map date_normalizer cells).
Proof.
  intros Hread Hwf Hj Hl.
  apply In_find_column in Hj as [jd Hjd]. apply In_find_column in Hl as [lp Hlp].
  destruct (setitem_dates df jd lp (proj2 Hwf) Hjd Hlp) as [Hlp' Hout].
  pose proof (preprocess_csv_read input_file output_file st df w1 jd lp
                Hread Hjd Hlp') as Hrun.
  cbv zeta in Hrun. rewrite Hout in Hrun.
  assert (Hprops :
    nrows (normalize_frame df) = nrows df
    /\ labels (normalize_frame df) = labels df
    /\ Forall (fun c => length (snd c) = nrows df) (series (normalize_frame df))
    /\ forall name cells,
         is_date_column name = true ->
         find_column name (series df) = Some cells ->
         find_column name (series (normalize_frame df))
         = Some (map date_normalizer cells)).
  { split; [reflexivity|]. split; [apply normalize_frame_labels|].
    split; [apply (normalize_frame_well_formed df Hwf)|].
    intros name cells Hd Hf. rewrite (normalize_frame_find _ _ _ Hf).
    now rewrite Hd. }
  destruct (df_to_csv L (normalize_frame df) output_file w1)
    as [[[]|e] w2]; eauto 10.
Qed.


(* --------------------------------------------------------------------- *)
(** *** The driver *)

(** Once the temporary directory, the connection and the cursor are
    there, [main] goes through table creation and the five stages and
    returns, whatever the libraries do. *)
Lemma main_completes (g : globals L) (st : state W) (w1 w2 w3 : W)
    (conn : Connection L) (cursor : Cursor L) :
  os_makedirs L local_csv_dir (world st) = (Return tt, w1) ->
  pg_connect L (db_config g) w1 = (Return conn, w2) ->
  conn_cursor L conn w2 = (Return cursor, w3) ->
  completes (main L g) st
    [Upload_Raw; Fetch_Raw; Preprocess; Upload_Clean; Bulk_Load].
Proof.
  intros Hdir Hconn Hcur.
  set (st3 := State w3 (log st)
                (calls st ++ [Call_makedirs local_csv_dir;
                              Call_connect (db_config g); Call_cursor])).
  assert (Hrest : completes
            (create_table_if_not_exists L conn cursor ;;
             upload_file_to_s3 L g csv_filename s3_key_uncleaned ;;
             fetch_csv_from_s3 L g s3_key_uncleaned local_csv_path ;;
             preprocess_csv L local_csv_path preprocessed_csv_path ;;
             upload_file_to_s3 L g preprocessed_csv_path s3_key_cleaned ;;
             bulk_load L conn cursor preprocessed_csv_path) st3
            ([] ++ [Upload_Raw] ++ [Fetch_Raw] ++ [Preprocess]
             ++ [Upload_Clean] ++ [Bulk_Load])).
  { apply completes_bind; [apply create_table_if_not_exists_completes|].
    intros ?. apply completes_bind; [apply upload_raw_completes|].
    intros ?. apply completes_bind; [apply fetch_raw_completes|].
    intros ?. apply completes_bind; [apply preprocess_csv_completes|].
    intros ?. apply completes_bind; [apply upload_clean_completes|].
    intros ?. apply bulk_load_completes. }
  destruct Hrest as (st' & cs & Erun & Ecalls & Estages).
  exists st', ([Call_makedirs local_csv_dir; Call_connect (db_config g);
                Call_cursor] ++ cs).
  split; [|split].
  - unfold main.
    rewrite (bind_invoke _ (os_makedirs L local_csv_dir) _ st tt w1 Hdir).
    rewrite (bind_invoke _ (pg_connect L (db_config g)) _
               (State w1 (log st) (calls st ++ [Call_makedirs local_csv_dir]))
               conn w2 Hconn).
    rewrite (bind_invoke _ (conn_cursor L conn) _
               (State w2 (log st)
                  ((calls st ++ [Call_makedirs local_csv_dir])
                   ++ [Call_connect (db_config g)]))
               cursor w3 Hcur).
    simpl. rewrite <- !app_assoc. exact Erun.
  - rewrite Ecalls. subst st3. simpl. now rewrite <- app_assoc.
  - rewrite stages_of_app. exact Estages.
Qed.


(** C6, as amended. The process exits with status 0 exactly when start-up
    completes: the module is loaded (log directory, settings, storage
    client) and [main] gets its temporary directory, its connection and
    its cursor.  From there on no exception leaves [main], whatever fails
    in table creation or in a stage; an exception of a start-up step is
    not caught. *)
Theorem exit_status_zero_iff (w : W) :
  exit_status L w = 0 <->
  exists (g : globals L) (st : state W) (w1 w2 w3 : W)
         (conn : Connection L) (cursor : Cursor L),
    module_body L (initial_state w) = (Return g, st)
    /\ os_makedirs L local_csv_dir (world st) = (Return tt, w1)
    /\ pg_connect L (db_config g) w1 = (Return conn, w2)
    /\ conn_cursor L conn w2 = (Return cursor, w3).
Proof.
  split.
  - unfold exit_status, script, bind.
    destruct (module_body L (initial_state w)) as [[g|e] st] eqn:Hmod;
      [|discriminate].
    destruct (os_makedirs L local_csv_dir (world st)) as [[[]|e] w1] eqn:Hdir.
    2: { unfold main. rewrite (bind_invoke_raise _ _ _ _ _ _ Hdir).
         discriminate. }
    destruct (pg_connect L (db_config g) w1) as [[conn|e] w2] eqn:Hconn.
    2: { unfold main.
         rewrite (bind_invoke _ (os_makedirs L local_csv_dir) _ st tt w1 Hdir).
         rewrite (bind_invoke_raise _ (pg_connect L (db_config g)) _
                    (State w1 (log st)
                       (calls st ++ [Call_makedirs local_csv_dir]))
                    e w2 Hconn).
         discriminate. }
    destruct (conn_cursor L conn w2) as [[cursor|e] w3] eqn:Hcur.
    2: { unfold main.
         rewrite (bind_invoke _ (os_makedirs L local_csv_dir) _ st tt w1 Hdir).
         rewrite (bind_invoke _ (pg_connect L (db_config g)) _
                    (State w1 (log st)
                       (calls st ++ [Call_makedirs local_csv_dir]))
                    conn w2 Hconn).
         rewrite (bind_invoke_raise _ (conn_cursor L conn) _
                    (State w2 (log st)
                       ((calls st ++ [Call_makedirs local_csv_dir])
                        ++ [Call_connect (db_config g)]))
                    e w3 Hcur).
         discriminate. }
    intros _. exists g, st, w1, w2, w3, conn, cursor. auto.
  - intros (g & st & w1 & w2 & w3 & conn & cursor & Hmod & Hdir & Hconn & Hcur).
    destruct (main_completes g st w1 w2 w3 conn cursor Hdir Hconn Hcur)
      as (st' & cs & Erun & _).
    unfold exit_status, script, bind. rewrite Hmod, Erun. reflexivity.
Qed.

(** C8. In the bulk load, the commit is called only when the COPY has
    succeeded, [rollback] is never called, and the cursor and the
    connection are closed after it on every path, the exception of a
    failed step having been caught. *)
Theorem bulk_load_commit_and_cleanup (conn : Connection L)
    (cursor : Cursor L) (path : string) (st : state W) :
  exists st' cs,
    bulk_load L conn cursor path st = (Return tt, st')
    /\ calls st' = calls st ++ cs ++ [Call_cursor_close; Call_conn_close]
    /\ ~ In Call_rollback cs
    /\ ~ In Call_cursor_close cs /\ ~ In Call_conn_close cs
    /\ (In Call_commit cs <->
        exists f w1 w2,
          file_open L path (world st) = (Return f, w1)
          /\ cursor_copy_expert L cursor copy_statement f w1 = (Return tt, w2))
    /\ exists w, world st' = conn_close L conn (cursor_close L cursor w).
Proof.
  rewrite bulk_load_run.
  destruct (file_open L path (world st)) as [[f|e] w1] eqn:Ho.
  - destruct (cursor_copy_expert L cursor copy_statement f w1)
      as [[[]|e] w2] eqn:Hc.
    + assert (Hcommit : In Call_commit
                [Call_open path; Call_copy_expert copy_statement;
                 Call_file_close; Call_commit]) by (simpl; auto).
      destruct (conn_commit L conn (file_close L f w2)) as [[[]|e] w3];
        eexists; eexists; (split; [reflexivity|]); (split; [reflexivity|]);
        (split; [simpl; intuition discriminate|]);
        (split; [simpl; intuition discriminate|]);
        (split; [simpl; intuition discriminate|]);
        (split; [split; eauto|]); eauto.
    + eexists; eexists; (split; [reflexivity|]); (split; [reflexivity|]);
        (split; [simpl; intuition discriminate|]);
        (split; [simpl; intuition discriminate|]);
        (split; [simpl; intuition discriminate|]).
      split; [|eauto]. split.
      * simpl; intuition discriminate.
      * intros (f' & w1' & w2' & [= <- <-] & Hc'). rewrite Hc in Hc'.
        discriminate Hc'.
  - eexists; eexists; (split; [reflexivity|]); (split; [reflexivity|]);
      (split; [simpl; intuition discriminate|]);
      (split; [simpl; intuition discriminate|]);
      (split; [simpl; intuition discriminate|]).
    split; [|eauto]. split.
    + simpl; intuition discriminate.
    + intros (f' & w1' & w2' & [=] & _).
Qed.

(** C9. [upload_file_to_s3] and [fetch_csv_from_s3] call the SDK once,
    log one record, and return; an exception of the SDK is caught and is
    the one logged. *)
Theorem storage_single_attempt (g : globals L) (a b : string)
    (st : state W) :
  (exists st' r,
     upload_file_to_s3 L g a b st = (Return tt, st')
     /\ calls st' = calls st ++ [Call_upload_file a (s3_bucket_name g) b]
     /\ log st' = log st ++ [r]
     /\ match s3_upload_file L (s3_client g) a (s3_bucket_name g) b (world st)
        with
        | (Return _, w') => world st' = w' /\ is_error r = false
        | (Raise e, w') =>
            world st' = w'
            /\ r = LogError ("Error uploading " +:+ a +:+ " to S3: ") e
        end)
  /\ (exists st' r,
        fetch_csv_from_s3 L g a b st = (Return tt, st')
        /\ calls st' = calls st ++ [Call_download_file (s3_bucket_name g) a b]
        /\ log st' = log st ++ [r]
        /\ match s3_download_file L (s3_client g) (s3_bucket_name g) a b
                                  (world st) with
           | (Return _, w') => world st' = w' /\ is_error r = false
           | (Raise e, w') =>
               world st' = w'
               /\ r = LogError ("Error fetching " +:+ a +:+ " from S3: ") e
           end).
Proof.
  split.
  - rewrite upload_file_to_s3_run.
    destruct (s3_upload_file L (s3_client g) a (s3_bucket_name g) b (world st))
      as [[[]|e] w']; eauto 10.
  - rewrite fetch_csv_from_s3_run.
    destruct (s3_download_file L (s3_client g) (s3_bucket_name g) a b
                (world st)) as [[[]|e] w']; eauto 10.
Qed.
End PipelineFacts.

(* ===================================================================== *)
(** ** Table creation on the reference server *)
(* ===================================================================== *)

(** The first call has logged an error, against the assumption. *)
Ltac no_error_logged :=
  match goal with
  | H : _ ++ [LogError _ _] = _ ++ [LogInfo _] |- _ =>
      apply app_inv_head in H; discriminate H
  end.

(** C7. On the reference server, a second call of
    [create_table_if_not_exists] leaves the world, and so the tables, as
    the first call left them; when the first call has logged no error,
    the second logs none, and the table is there, once. *)
Theorem create_table_idempotent (st : state Sim.world) :
  let st1 := snd (create_table_if_not_exists Sim.lib tt tt st) in
  let st2 := snd (create_table_if_not_exists Sim.lib tt tt st1) in
  world st2 = world st1
  /\ fst (create_table_if_not_exists Sim.lib tt tt st1) = Return tt
  /\ (log st1
        = log st ++ [LogInfo "Table created or already exists in PostgreSQL"] ->
      log st2
        = log st1 ++ [LogInfo "Table created or already exists in PostgreSQL"]
      /\ is_Some (Sim.tables (world st1) !! "your_table")).
Proof.
  intros st1 st2. subst st1 st2.
  rewrite !create_table_if_not_exists_run.
  destruct st as [w lg cs]. destruct w as [fs dw cf ob sr sv co cu tb tx].
  cbn [world log calls cursor_execute conn_commit Sim.lib].
  unfold Sim.execute, Sim.statement, Sim.commit.
  cbn [Sim.conn_open Sim.cursor_open Sim.txn Sim.tables].
  destruct co, cu; cbn [andb negb];
    try (cbn; repeat split; try reflexivity; no_error_logged).
  unfold Sim.run_statement, create_table_statement.
  destruct tx as [|cat|].
  - destruct (tb !! "your_table") as [t|] eqn:E; cbn;
      rewrite ?E, ?lookup_insert_eq; cbn; rewrite ?E, ?lookup_insert_eq;
      eauto.
  - destruct (cat !! "your_table") as [t|] eqn:E; cbn;
      rewrite ?E, ?lookup_insert_eq; cbn; rewrite ?E, ?lookup_insert_eq;
      eauto.
  - cbn. repeat split; try reflexivity; no_error_logged.
Qed.

(** On a server that works, with the connection and the cursor open, the
    first call creates the table and the second finds it. *)
Lemma create_table_example :
  let st1 :=
    snd (create_table_if_not_exists Sim.lib tt tt (initial_state Sim.connected))
  in
  let st2 := snd (create_table_if_not_exists Sim.lib tt tt st1) in
  log st1 = [LogInfo "Table created or already exists in PostgreSQL"]
  /\ world st2 = world st1
  /\ log st2 = [LogInfo "Table created or already exists in PostgreSQL";
                LogInfo "Table created or already exists in PostgreSQL"]
  /\ is_Some (Sim.tables (world st1) !! "your_table").
Proof.
  intros st1 st2.
  assert (H1 : log st1
               = [LogInfo "Table created or already exists in PostgreSQL"])
    by reflexivity.
  destruct (create_table_idempotent (initial_state Sim.connected))
    as (Hw & _ & Hlog).
  destruct (Hlog H1) as [H2 H3].
  split; [exact H1|]. split; [exact Hw|]. split; [|exact H3].
  fold st1 in H2. fold st2 in H2. rewrite H2, H1. reflexivity.
Defined.

(* ===================================================================== *)
(** ** Runs on the reference world *)
(* ===================================================================== *)

(** C6, as stated, fails: with the database server down,
    [psycopg2.connect] raises in [main] outside any [try], the exception
    reaches the top level and the exit status is 1.  The same holds
    without the settings file, where [config['s3']] raises while the
    module is loaded. *)
Lemma exit_status_server_down :
  fst (script Sim.lib (initial_state Sim.server_down))
    = Raise (ExternalError "OperationalError" "localhost")
  /\ exit_status Sim.lib Sim.server_down = 1
  /\ exit_status Sim.lib Sim.no_config = 1
  /\ ~ (forall (W : Type) (L : library W) (w : W), exit_status L w = 0).
Proof.
  assert (E : exit_status Sim.lib Sim.server_down = 1)
    by (vm_compute; reflexivity).
  split; [vm_compute; reflexivity|]. split; [exact E|].
  split; [vm_compute; reflexivity|].
  intros H. rewrite (H _ Sim.lib Sim.server_down) in E. discriminate E.
Qed.


(** The exit status on the machine where everything works. *)
Lemma exit_status_zero_example :
  (module_body Sim.lib (initial_state Sim.healthy)
   = (Return Sim.sample_globals,
      State Sim.healthy []
        [Call_makedirs "log"; Call_basicConfig "log/app.log";
         Call_config_read "config/config.ini";
         Call_boto3_client "id" "secret" "eu-west-1"])
   /\ os_makedirs Sim.lib local_csv_dir Sim.healthy = (Return tt, Sim.healthy)
   /\ pg_connect Sim.lib (db_config Sim.sample_globals) Sim.healthy
      = (Return tt, Sim.set_txn Sim.Idle (Sim.set_conn_open true Sim.healthy))
   /\ conn_cursor Sim.lib tt
        (Sim.set_txn Sim.Idle (Sim.set_conn_open true Sim.healthy))
      = (Return tt, Sim.connected))
  /\ exit_status Sim.lib Sim.healthy = 0.
Proof.
  assert (H1 : os_makedirs Sim.lib local_csv_dir Sim.healthy
               = (Return tt, Sim.healthy)) by reflexivity.
  assert (H2 : pg_connect Sim.lib (db_config Sim.sample_globals) Sim.healthy
               = (Return tt,
                  Sim.set_txn Sim.Idle (Sim.set_conn_open true Sim.healthy)))
    by reflexivity.
  assert (H3 : conn_cursor Sim.lib tt
                 (Sim.set_txn Sim.Idle (Sim.set_conn_open true Sim.healthy))
               = (Return tt, Sim.connected)) by reflexivity.
  assert (H0 : module_body Sim.lib (initial_state Sim.healthy)
               = (Return Sim.sample_globals,
                  State Sim.healthy []
                    [Call_makedirs "log"; Call_basicConfig "log/app.log";
                     Call_config_read "config/config.ini";
                     Call_boto3_client "id" "secret" "eu-west-1"]))
    by reflexivity.
  split; [auto|].
  apply (proj2 (exit_status_zero_iff Sim.lib Sim.healthy)).
  exists Sim.sample_globals,
    (State Sim.healthy []
       [Call_makedirs "log"; Call_basicConfig "log/app.log";
        Call_config_read "config/config.ini";
        Call_boto3_client "id" "secret" "eu-west-1"]),
    Sim.healthy, (Sim.set_txn Sim.Idle (Sim.set_conn_open true Sim.healthy)),
    Sim.connected, tt, tt.
  auto.
Defined.

(** The row of the end-to-end scenario: one data row in, one data row
    out, with the dates "2022-01-01" and "2022-01-15". *)
Lemma preprocess_csv_rows_example :
  (pd_read_csv Sim.lib local_csv_path Sim.fetched
   = (Return Sim.sample_frame, Sim.fetched)
   /\ well_formed Sim.sample_frame
   /\ In "Join Date" (labels Sim.sample_frame)
   /\ In "Last Payment Date" (labels Sim.sample_frame))
  /\ exists st' out,
       preprocess_csv Sim.lib local_csv_path preprocessed_csv_path
                      (initial_state Sim.fetched) = (Return tt, st')
       /\ calls st' = [Call_read_csv local_csv_path;
                       Call_to_csv out preprocessed_csv_path]
       /\ nrows out = 1%nat
       /\ labels out = labels Sim.sample_frame
       /\ Forall (fun c => length (snd c) = 1%nat) (series out)
       /\ find_column "Join Date" (series out) = Some [PyStr "2022-01-01"]
       /\ find_column "Last Payment Date" (series out)
          = Some [PyStr "2022-01-15"].
Proof.
  assert (Hr : pd_read_csv Sim.lib local_csv_path Sim.fetched
               = (Return Sim.sample_frame, Sim.fetched)) by reflexivity.
  assert (Hwf : well_formed Sim.sample_frame)
    by (split; [repeat constructor | compute_done]).
  assert (Hj : In "Join Date" (labels Sim.sample_frame)) by (simpl; auto 10).
  assert (Hl : In "Last Payment Date" (labels Sim.sample_frame))
    by (simpl; auto 10).
  split; [auto|].
  destruct (preprocess_csv_rows_and_dates Sim.lib local_csv_path
              preprocessed_csv_path (initial_state Sim.fetched)
              Sim.sample_frame Sim.fetched Hr Hwf Hj Hl)
    as (st' & out & Hrun & Hcalls & Hn & Hlab & Hlen & Hdates).
  exists st', out. repeat (split; [assumption|]). split.
  - exact (Hdates "Join Date" [PyStr "01-01-22"] eq_refl eq_refl).
  - exact (Hdates "Last Payment Date" [PyStr "15-01-22"] eq_refl eq_refl).
Defined.


(* ===================================================================== *)
(** ** More on the Date Normalizer *)
(* ===================================================================== *)

Lemma digit_char_value (n : Z) :
  0 <= n <= 9 ->
  digit_value (digit_char n) = n /\ Re.is_decimal (digit_char n) = true
  /\ digit_char n <> "-"%char.
Proof.
  intros H.
  assert (Hin : In n (z_range 0 10)) by (apply z_range_In; lia).
  cbv in Hin.
  repeat (destruct Hin as [Hin | Hin]; [subst n|]);
    [idtac .. | contradiction Hin];
    (split; [reflexivity | split; [reflexivity | discriminate]]).
Qed.



(** The value returned by [convert_date_string] is that of the pure
    normalizer. *)
Lemma convert_date_string_value {W : Type} (v : pyval) (st : state W) :
  fst (convert_date_string v st) = Return (date_normalizer v).
Proof.
  rewrite convert_date_string_run. unfold date_normalizer.
  destruct (strptime v); reflexivity.
Qed.

Lemma date_normalizer_str (s t : string) :
  date_normalizer (PyStr s) = PyStr t ->
  exists d m y,
    dmy_text d m y s /\ calendar_date (century y) m d
    /\ t = iso_text (century y) m d.
Proof.
  unfold date_normalizer. simpl.
  destruct (strptime_str s) as [e|dt] eqn:E; [discriminate|].
  apply strptime_str_inv in E as (d & m & y & Ht & Hc & ->).
  intros [= <-]. exists d, m, y. auto.
Qed.

(** X1. Whatever the cell, the result is [None] or the ten characters
    year-month-day of a date that exists, in a year of 1969..2068. *)
Theorem convert_date_string_range {W : Type} (v : pyval) (st : state W) :
  fst (convert_date_string v st) = Return PyNone
  \/ exists y m d,
       fst (convert_date_string v st) = Return (PyStr (iso_text y m d))
       /\ 1969 <= y <= 2068 /\ calendar_date y m d
       /\ String.length (iso_text y m d) = 10%nat.
Proof.
  rewrite convert_date_string_value.
  destruct (date_normalizer v) as [| | | |t] eqn:E;
    try (unfold date_normalizer in E; destruct (strptime v); discriminate E).
  - now left.
  - right. destruct v as [| | | |s];
      try (unfold date_normalizer in E; simpl in E; discriminate E).
    apply date_normalizer_str in E as (d & m & y & Ht & Hc & ->).
    exists (century y), m, d. split; [reflexivity|].
    destruct Ht as (_ & _ & _ & _ & _ & [Ry _] & _).
    split; [apply century_range, Ry|]. split; [exact Hc | reflexivity].
Qed.

(** Every way of matching a text that starts with a date in the format
    stops where the date stops. *)
Lemma format_regex_prefix (d m y : Z) (s r : string) (f : Re.found) :
  dmy_text d m y s -> In f (Re.run format_regex (s +:+ r)) ->
  Re.consumed f = s /\ Re.remainder f = r.
Proof.
  intros (td & tm & ty & Hd & Hm & Hy & ->) Hf.
  apply run_matches in Hf as [Hf E].
  apply format_regex_sound in Hf
    as (td' & tm' & ty' & d' & m' & y' & Ec & Eg & Hd' & Hm' & Hy' & _).
  rewrite Ec in E |- *. rewrite !format_text_app in E.
  pose proof (re_d_complete _ _ Hd) as (_ & _ & Nd).
  pose proof (re_d_complete _ _ Hd') as (_ & _ & Nd').
  pose proof (re_m_complete _ _ Hm) as (_ & _ & Nm).
  pose proof (re_m_complete _ _ Hm') as (_ & _ & Nm').
  destruct (split_at_hyphen _ _ _ _ Nd Nd' E) as [<- E1].
  destruct (split_at_hyphen _ _ _ _ Nm Nm' E1) as [<- E2].
  destruct Hy as [Ry Ey], Hy' as [Ry' Ey'].
  unfold pad2 in Ey, Ey'. subst ty ty'. simpl in E2.
  inversion E2 as [[E3 E4 E5]]. rewrite E3, E4. auto.
Qed.

(** Text after the date is refused: [strptime] reports it as
    unconverted. *)
Lemma strptime_str_trailing (d m y : Z) (s r : string) :
  dmy_text d m y s -> r <> "" ->
  strptime_str (s +:+ r) = inl (ValueError_unconverted r).
Proof.
  intros Ht Hr. unfold strptime_str, Re.re_match.
  destruct (Re.run format_regex (s +:+ r)) as [|f l] eqn:E.
  - exfalso. pose proof Ht as (td & tm & ty & Hd & Hm & Hy & Es).
    pose proof (format_regex_complete _ _ _ _ _ _ Hd Hm Hy) as M.
    rewrite <- Es in M.
    assert (Hin : In (Re.Found s [("d", td); ("m", tm); ("y", ty)] r)
                     (Re.run format_regex (s +:+ r))).
    { apply run_matches. simpl. auto. }
    rewrite E in Hin. destruct Hin.
  - assert (Hf : In f (Re.run format_regex (s +:+ r))) by (rewrite E; now left).
    destruct (format_regex_prefix _ _ _ _ _ _ Ht Hf) as [_ Hrem]. simpl.
    rewrite Hrem.
    destruct (String.eqb_spec r ""); [contradiction | reflexivity].
Qed.

(** X2. A date in the format followed by anything is refused: the result
    is [None], and what follows the date is logged as unconverted.  So is
    a four-digit year, whose last two digits follow the date. *)
Theorem trailing_text_gives_none {W : Type} (st : state W) (s r : string)
    (d m y : Z) :
  dmy_text d m y s -> r <> "" ->
  convert_date_string (PyStr (s +:+ r)) st
  = (Return PyNone,
     State (world st)
           (log st ++ [LogError "Error converting date string: "
                                (ValueError_unconverted r)])
           (calls st)).
Proof.
  intros Ht Hr. rewrite convert_date_string_run. simpl.
  now rewrite (strptime_str_trailing _ _ _ _ _ Ht Hr).
Qed.

Lemma trailing_text_example :
  dmy_text 5 3 20 "05-03-20" /\ "21" <> ""
  /\ convert_date_string (PyStr "05-03-2021") (initial_state tt)
     = (Return PyNone,
        State tt [LogError "Error converting date string: "
                           (ValueError_unconverted "21")] []).
Proof.
  assert (Ht : dmy_text 5 3 20 "05-03-20").
  { exists "05", "03", "20". unfold day_text, month_text, year_text.
    repeat split; try lia; left; reflexivity. }
  assert (Hr : "21" <> "") by discriminate.
  split; [exact Ht|]. split; [exact Hr|].
  exact (trailing_text_gives_none (initial_state tt) "05-03-20" "21" 5 3 20
           Ht Hr).
Defined.

(** A text that the pattern matches has a hyphen in second or third
    place. *)
Lemma format_regex_early_hyphen (s : string) (f : Re.found) :
  In f (Re.run format_regex s) ->
  (exists c rest, s = String c (String "-" rest))
  \/ (exists c1 c2 rest, s = String c1 (String c2 (String "-" rest))).
Proof.
  intros Hf. apply run_matches in Hf as [Hf ->].
  apply format_regex_sound in Hf
    as (td & tm & ty & d & m & y & -> & _ & [_ Hd] & _).
  rewrite format_text_app.
  destruct Hd as [-> | [_ [-> | ->]]]; unfold pad2; simpl; eauto.
Qed.

(** The text printed by '%Y-%m-%d' is refused by '%d-%m-%y'. *)
Lemma strptime_str_strftime (dt : datetime) :
  exists e, strptime_str (strftime dt) = inl e.
Proof.
  unfold strptime_str, Re.re_match.
  destruct (Re.run format_regex (strftime dt)) as [|f l] eqn:E; [eauto|].
  exfalso.
  assert (Hf : In f (Re.run format_regex (strftime dt)))
    by (rewrite E; now left).
  assert (H2 : 0 <= year dt / 100 mod 10 <= 9)
    by (pose proof (Z.mod_pos_bound (year dt / 100) 10); lia).
  assert (H3 : 0 <= year dt mod 100 / 10 <= 9).
  { pose proof (Z.mod_pos_bound (year dt) 100).
    split; [apply Z.div_pos; lia | ].
    assert (year dt mod 100 / 10 < 10)
      by (apply Z.div_lt_upper_bound; lia). lia. }
  apply digit_char_value in H2 as (_ & _ & N2).
  apply digit_char_value in H3 as (_ & _ & N3).
  apply format_regex_early_hyphen in Hf
    as [(c & rest & Es) | (c1 & c2 & rest & Es)];
    unfold strftime, pad4, pad2 in Es; simpl in Es;
    injection Es as _ E2 E3; congruence.
Qed.

(** X3. The Date Normalizer refuses what it returns: a second conversion
    of any cell gives [None]. *)
Theorem convert_date_string_twice {W : Type} (v : pyval) (st : state W) :
  match convert_date_string v st with
  | (Return r, st1) => fst (convert_date_string r st1) = Return PyNone
  | (Raise _, _) => False
  end.
Proof.
  rewrite convert_date_string_run.
  destruct (strptime v) as [e|dt].
  - rewrite convert_date_string_value. reflexivity.
  - rewrite convert_date_string_value. unfold date_normalizer. simpl.
    destruct (strptime_str_strftime dt) as [e ->]. reflexivity.
Qed.

Lemma leap_day_normalizer (y : Z) :
  0 <= y <= 99 ->
  date_normalizer (PyStr ("29-02-" +:+ pad2 y))
  = if y mod 4 =? 0 then PyStr (iso_text (century y) 2 29) else PyNone.
Proof.
  intros H.
  assert (Hin : In y (z_range 0 100)) by (apply z_range_In; lia).
  cbv in Hin.
  repeat (destruct Hin as [Hin | Hin]; [subst y|]);
    [idtac .. | contradiction Hin]; vm_compute; reflexivity.
Qed.

(** X4. The 29th of February is accepted exactly for the two-digit years
    that are multiples of 4, year 00 (2000) included. *)
Theorem leap_day {W : Type} (st : state W) (y : Z) :
  0 <= y <= 99 ->
  fst (convert_date_string (PyStr ("29-02-" +:+ pad2 y)) st)
  = Return (if y mod 4 =? 0 then PyStr (iso_text (century y) 2 29)
            else PyNone).
Proof.
  intros H. rewrite convert_date_string_value.
  now rewrite (leap_day_normalizer y H).
Qed.

Lemma leap_day_example :
  (0 <= 0 <= 99
   /\ fst (convert_date_string (PyStr "29-02-00") (initial_state tt))
      = Return (PyStr "2000-02-29"))
  /\ (0 <= 21 <= 99
      /\ fst (convert_date_string (PyStr "29-02-21") (initial_state tt))
         = Return PyNone).
Proof.
  split; (split; [lia|]).
  - exact (leap_day (initial_state tt) 0 ltac:(lia)).
  - exact (leap_day (initial_state tt) 21 ltac:(lia)).
Defined.




(* ===================================================================== *)
(** ** More on the CSV Preprocessor *)
(* ===================================================================== *)


Lemma date_errors_length (cells : list pyval) :
  length (date_errors cells)
  = length (List.filter (fun v => is_none (date_normalizer v)) cells).
Proof.
  induction cells as [|v cells IH]; [reflexivity|].
  unfold date_errors, date_normalizer in *. simpl.
  destruct (strptime v); simpl; now rewrite IH.
Qed.

Lemma date_errors_are_date_errors (cells : list pyval) :
  Forall is_date_error (date_errors cells).
Proof.
  induction cells as [|v cells IH]; [constructor|].
  unfold date_errors in *. simpl.
  destruct (strptime v) as [e|dt]; simpl; [|exact IH].
  constructor; [now exists e | exact IH].
Qed.

Lemma In_labels_find (name : string) (df : DataFrame) :
  In name (labels df) <-> exists v, find_column name (series df) = Some v.
Proof.
  split; [apply In_find_column|].
  intros [v Hv]. apply find_column_In in Hv. apply in_map_iff.
  exists (name, v). auto.
Qed.

Lemma find_payment_after_join (df : DataFrame) (jd values : list pyval) :
  find_column "Join Date" (series df) = Some jd ->
  find_column "Last Payment Date" (series (setitem df "Join Date" values))
  = find_column "Last Payment Date" (series df).
Proof.
  intros Hjd. simpl. rewrite (set_column_found _ _ _ _ Hjd).
  apply find_column_set_other. discriminate.
Qed.

Section PreprocessorFacts.

Context {W : Type} (L : library W).

(** The run of [preprocess_csv], by the outcome of reading, of the two
    column lookups and of writing. *)
Lemma preprocess_csv_cases (input_file output_file : string) (st : state W) :
  let failed e :=
    LogError ("Error preprocessing " +:+ input_file +:+ ": ") e in
  preprocess_csv L input_file output_file st =
  match pd_read_csv L input_file (world st) with
  | (Raise e, w1) =>
      (Return tt,
       State w1 (log st ++ [failed e]) (calls st ++ [Call_read_csv input_file]))
  | (Return df, w1) =>
      match find_column "Join Date" (series df) with
      | None =>
          (Return tt,
           State w1 (log st ++ [failed (KeyError "Join Date")])
                 (calls st ++ [Call_read_csv input_file]))
      | Some jd =>
          match find_column "Last Payment Date" (series df) with
          | None =>
              (Return tt,
               State w1
                 (log st ++ date_errors jd
                  ++ [failed (KeyError "Last Payment Date")])
                 (calls st ++ [Call_read_csv input_file]))
          | Some lp =>
              let out :=
                setitem (setitem df "Join Date" (map date_normalizer jd))
                        "Last Payment Date" (map date_normalizer lp) in
              match df_to_csv L out output_file w1 with
              | (Return _, w2) =>
                  (Return tt,
                   State w2
                     (log st ++ date_errors jd ++ date_errors lp
                      ++ [LogInfo ("Preprocessed " +:+ input_file
                                   +:+ " and saved as " +:+ output_file)])
                     (calls st ++ [Call_read_csv input_file;
                                   Call_to_csv out output_file]))
              | (Raise e, w2) =>
                  (Return tt,
                   State w2
                     (log st ++ date_errors jd ++ date_errors lp ++ [failed e])
                     (calls st ++ [Call_read_csv input_file;
                                   Call_to_csv out output_file]))
              end
          end
      end
  end.
Proof.
  intros failed. subst failed.
  destruct (pd_read_csv L input_file (world st)) as [[df|e] w1] eqn:Hread.
  - destruct (find_column "Join Date" (series df)) as [jd|] eqn:Hjd.
    + pose proof (find_payment_after_join df jd (map date_normalizer jd) Hjd)
        as Hsame.
      destruct (find_column "Last Payment Date" (series df)) as [lp|] eqn:Hlp.
      * exact (preprocess_csv_read L input_file output_file st df w1 jd lp
                 Hread Hjd Hsame).
      * unfold preprocess_csv, try_except.
        unfold bind at 1. rewrite (invoke_run _ _ _ _ _ Hread).
        unfold bind at 1. unfold getitem at 1. rewrite Hjd. unfold ret at 1.
        unfold bind at 1. rewrite series_apply_convert.
        unfold bind at 1. unfold getitem at 1. rewrite Hsame.
        unfold raise, logging_error. simpl. now rewrite <- app_assoc.
    + unfold preprocess_csv, try_except.
      unfold bind at 1. rewrite (invoke_run _ _ _ _ _ Hread).
      unfold bind at 1. unfold getitem at 1. rewrite Hjd.
      unfold raise, logging_error. reflexivity.
  - unfold preprocess_csv, try_except.
    unfold bind at 1. rewrite (invoke_run _ _ _ _ _ Hread).
    unfold logging_error. reflexivity.
Qed.

(** X6. [preprocess_csv] always returns.  It calls [read_csv] once, then
    [to_csv] at most once and for the output path; [to_csv] is called
    exactly when the frame has been read and has both date columns. *)
Theorem output_written_iff (input_file output_file : string) (st : state W) :
  exists st' cs,
    preprocess_csv L input_file output_file st = (Return tt, st')
    /\ calls st' = calls st ++ Call_read_csv input_file :: cs
    /\ (cs = [] \/ exists out, cs = [Call_to_csv out output_file])
    /\ (cs <> [] <->
        exists df w1,
          pd_read_csv L input_file (world st) = (Return df, w1)
          /\ In "Join Date" (labels df) /\ In "Last Payment Date" (labels df)).
Proof.
  rewrite preprocess_csv_cases.
  destruct (pd_read_csv L input_file (world st)) as [[df|e] w1] eqn:Hread.
  - destruct (find_column "Join Date" (series df)) as [jd|] eqn:Hjd.
    + destruct (find_column "Last Payment Date" (series df)) as [lp|] eqn:Hlp.
      * cbv zeta.
        destruct (df_to_csv L _ output_file w1) as [[[]|e] w2];
          eexists; eexists; (split; [reflexivity|]); (split; [reflexivity|]);
          (split; [eauto|]);
          (split; [intros _; exists df, w1; rewrite !In_labels_find; eauto
                  | discriminate]).
      * eexists; exists []. split; [reflexivity|]. split; [reflexivity|].
        split; [auto|]. split; [congruence|].
        intros (df' & w1' & [= <- <-] & _ & Hl).
        apply In_labels_find in Hl as [v Hv]. congruence.
    + eexists; exists []. split; [reflexivity|]. split; [reflexivity|].
      split; [auto|]. split; [congruence|].
      intros (df' & w1' & [= <- <-] & Hj & _).
      apply In_labels_find in Hj as [v Hv]. congruence.
  - eexists; exists []. split; [reflexivity|]. split; [reflexivity|].
    split; [auto|]. split; [congruence|].
    intros (df' & w1' & [=] & _).
Qed.

(** X7. When the frame lacks one of the two date columns, nothing is
    written: [preprocess_csv] logs the KeyError of the first column that
    is missing, Join Date being looked up first, after the records of
    the Join Date cells it has already converted, and leaves the world as
    [read_csv] left it. *)
Theorem missing_column_logged (input_file output_file : string)
    (st : state W) (df : DataFrame) (w1 : W) :
  pd_read_csv L input_file (world st) = (Return df, w1) ->
  ~ In "Join Date" (labels df) \/ ~ In "Last Payment Date" (labels df) ->
  exists name rs,
    preprocess_csv L input_file output_file st
    = (Return tt,
       State w1
         (log st ++ rs
          ++ [LogError ("Error preprocessing " +:+ input_file +:+ ": ")
                       (KeyError name)])
         (calls st ++ [Call_read_csv input_file]))
    /\ ~ In name (labels df)
    /\ (name = "Join Date" /\ rs = []
        \/ name = "Last Payment Date"
           /\ exists jd, find_column "Join Date" (series df) = Some jd
                         /\ rs = date_errors jd).
Proof.
  intros Hread Hmiss. rewrite preprocess_csv_cases, Hread.
  destruct (find_column "Join Date" (series df)) as [jd|] eqn:Hjd.
  - destruct (find_column "Last Payment Date" (series df)) as [lp|] eqn:Hlp.
    + exfalso. destruct Hmiss as [H | H]; apply H, In_labels_find; eauto.
    + exists "Last Payment Date", (date_errors jd).
      split; [reflexivity|]. split; [|eauto].
      intros [v Hv]%In_labels_find. congruence.
  - exists "Join Date", []. split; [reflexivity|]. split; [|auto].
    intros [v Hv]%In_labels_find. congruence.
Qed.

(** X8. When the frame is read and has the two columns, the log receives
    one record for each cell that comes out as [None], those of Join Date
    first and in row order, and then one record for the outcome of the
    whole. *)
Theorem one_error_record_per_cell (input_file output_file : string)
    (st : state W) (df : DataFrame) (w1 : W) (jd lp : list pyval) :
  pd_read_csv L input_file (world st) = (Return df, w1) ->
  find_column "Join Date" (series df) = Some jd ->
  find_column "Last Payment Date" (series df) = Some lp ->
  exists st' r,
    preprocess_csv L input_file output_file st = (Return tt, st')
    /\ log st' = log st ++ date_errors jd ++ date_errors lp ++ [r]
    /\ ~ is_date_error r
    /\ Forall is_date_error (date_errors jd ++ date_errors lp)
    /\ length (date_errors jd)
       = length (List.filter (fun v => is_none (date_normalizer v)) jd)
    /\ length (date_errors lp)
       = length (List.filter (fun v => is_none (date_normalizer v)) lp).
Proof.
  intros Hread Hjd Hlp. rewrite preprocess_csv_cases, Hread, Hjd, Hlp.
  cbv zeta.
  assert (Hall : Forall is_date_error (date_errors jd ++ date_errors lp)).
  { apply Forall_app. split; apply date_errors_are_date_errors. }
  destruct (df_to_csv L _ output_file w1) as [[[]|e] w2];
    eexists; eexists; (split; [reflexivity|]); (split; [reflexivity|]);
    (split; [intros [e' He']; discriminate He'|]);
    (split; [exact Hall|]); split; apply date_errors_length.
Qed.


End PreprocessorFacts.

(* ===================================================================== *)
(** ** More on the Relational Loader and the driver *)
(* ===================================================================== *)


Section DriverFacts.

Context {W : Type} (L : library W).

(** X10. [create_table_if_not_exists] always returns and logs one record.
    It sends the statement once; it commits exactly when the statement
    has returned, and never rolls back.  Success is logged exactly when
    both calls have returned; an exception of the statement is the one
    logged, and the world is then left as the statement left it. *)
Theorem create_table_commits_after_execute (conn : Connection L)
    (cursor : Cursor L) (st : state W) :
  exists st' cs r,
    create_table_if_not_exists L conn cursor st = (Return tt, st')
    /\ calls st' = calls st ++ Call_execute create_table_statement :: cs
    /\ log st' = log st ++ [r]
    /\ (cs = [] \/ cs = [Call_commit])
    /\ (cs = [Call_commit] <->
        exists w1, cursor_execute L cursor create_table_statement (world st)
                   = (Return tt, w1))
    /\ (is_error r = false <->
        exists w1 w2,
          cursor_execute L cursor create_table_statement (world st)
          = (Return tt, w1)
          /\ conn_commit L conn w1 = (Return tt, w2))
    /\ (forall e w1,
          cursor_execute L cursor create_table_statement (world st)
          = (Raise e, w1) ->
          world st' = w1
          /\ r = LogError "Error creating table in PostgreSQL: " e).
Proof.
  rewrite create_table_if_not_exists_run.
  destruct (cursor_execute L cursor create_table_statement (world st))
    as [[[]|e] w1] eqn:He.
  - destruct (conn_commit L conn w1) as [[[]|e] w2] eqn:Hc;
      eexists; exists [Call_commit]; eexists;
      (split; [reflexivity|]); (split; [reflexivity|]);
      (split; [reflexivity|]); (split; [auto|]);
      (split; [split; eauto|]); (split; [|discriminate]).
    + split; eauto.
    + split; [discriminate|].
      intros (w1' & w2' & [= <-] & Hc'). rewrite Hc in Hc'. discriminate Hc'.
  - eexists; exists []; eexists;
      (split; [reflexivity|]); (split; [reflexivity|]);
      (split; [reflexivity|]); (split; [auto|]).
    split; [split; [discriminate | intros (w1' & [=])]|].
    split; [split; [discriminate | intros (w1' & w2' & [=] & _)]|].
    intros e' w1' [= <- <-]. auto.
Qed.


(** X12. When [conn.cursor()] raises, the exception leaves [main] at
    once: no stage is started and the connection just opened is not
    closed. *)
Theorem cursor_failure_leaves_connection_open (g : globals L) (st : state W)
    (w1 w2 w3 : W) (conn : Connection L) (e : exn) :
  os_makedirs L local_csv_dir (world st) = (Return tt, w1) ->
  pg_connect L (db_config g) w1 = (Return conn, w2) ->
  conn_cursor L conn w2 = (Raise e, w3) ->
  exists st',
    main L g st = (Raise e, st')
    /\ world st' = w3 /\ log st' = log st
    /\ calls st' = calls st ++ [Call_makedirs local_csv_dir;
                                Call_connect (db_config g); Call_cursor]
    /\ stages_of (calls st') = stages_of (calls st).
Proof.
  intros Hdir Hconn Hcur. eexists. split; [|split; [|split; [|split]]].
  - unfold main.
    rewrite (bind_invoke _ (os_makedirs L local_csv_dir) _ st tt w1 Hdir).
    rewrite (bind_invoke _ (pg_connect L (db_config g)) _
               (State w1 (log st) (calls st ++ [Call_makedirs local_csv_dir]))
               conn w2 Hconn).
    rewrite (bind_invoke_raise _ (conn_cursor L conn) _
               (State w2 (log st)
                  ((calls st ++ [Call_makedirs local_csv_dir])
                   ++ [Call_connect (db_config g)]))
               e w3 Hcur).
    reflexivity.
  - reflexivity.
  - reflexivity.
  - simpl. now rewrite <- !app_assoc.
  - simpl. rewrite !stages_of_app. simpl. now rewrite !app_nil_r.
Qed.

End DriverFacts.

Section DriverTrace.

Context {W : Type} (L : library W).









End DriverTrace.

(* ===================================================================== *)
(** ** The settings *)
(* ===================================================================== *)




Section SettingsFacts.

Context {W : Type} (L : library W).




End SettingsFacts.

(* ===================================================================== *)
(** ** More runs on the reference world *)
(* ===================================================================== *)

(** A frame without Last Payment Date: the Join Date cell that cannot be
    read is logged, then the missing column. *)
Lemma missing_column_example :
  (pd_read_csv Sim.lib local_csv_path (machine_with short_frame)
   = (Return short_frame, machine_with short_frame)
   /\ (~ In "Join Date" (labels short_frame)
       \/ ~ In "Last Payment Date" (labels short_frame)))
  /\ exists name rs,
       preprocess_csv Sim.lib local_csv_path preprocessed_csv_path
                      (initial_state (machine_with short_frame))
       = (Return tt,
          State (machine_with short_frame)
            (rs ++ [LogError ("Error preprocessing " +:+ local_csv_path
                              +:+ ": ") (KeyError name)])
            [Call_read_csv local_csv_path])
       /\ ~ In name (labels short_frame).
Proof.
  assert (Hr : pd_read_csv Sim.lib local_csv_path (machine_with short_frame)
               = (Return short_frame, machine_with short_frame))
    by reflexivity.
  assert (Hm : ~ In "Join Date" (labels short_frame)
               \/ ~ In "Last Payment Date" (labels short_frame))
    by (right; simpl; intuition discriminate).
  split; [auto|].
  destruct (missing_column_logged Sim.lib local_csv_path preprocessed_csv_path
              (initial_state (machine_with short_frame)) short_frame
              (machine_with short_frame) Hr Hm)
    as (name & rs & Hrun & Hname & _).
  exists name, rs. auto.
Defined.

(** Three rows with three cells that cannot be read: two in Join Date,
    one in Last Payment Date. *)
Lemma one_error_record_per_cell_example :
  (pd_read_csv Sim.lib local_csv_path (machine_with dirty_frame)
   = (Return dirty_frame, machine_with dirty_frame)
   /\ find_column "Join Date" (series dirty_frame)
      = Some [PyStr "01-01-22"; PyStr "2021/03/05"; PyFloat FNaN]
   /\ find_column "Last Payment Date" (series dirty_frame)
      = Some [PyStr "15-01-22"; PyStr "31-02-22"; PyStr "1-2-03"])
  /\ exists st' r,
       preprocess_csv Sim.lib local_csv_path preprocessed_csv_path
                      (initial_state (machine_with dirty_frame))
       = (Return tt, st')
       /\ log st'
          = [LogError "Error converting date string: "
                      (ValueError_no_match "2021/03/05" "%d-%m-%y");
             LogError "Error converting date string: "
                      (TypeError_strptime_arg 0 "float");
             LogError "Error converting date string: "
                      (ValueError_date "day is out of range for month");
             r]
       /\ ~ is_date_error r.
Proof.
  assert (Hr : pd_read_csv Sim.lib local_csv_path (machine_with dirty_frame)
               = (Return dirty_frame, machine_with dirty_frame))
    by reflexivity.
  assert (Hj : find_column "Join Date" (series dirty_frame)
               = Some [PyStr "01-01-22"; PyStr "2021/03/05"; PyFloat FNaN])
    by reflexivity.
  assert (Hl : find_column "Last Payment Date" (series dirty_frame)
               = Some [PyStr "15-01-22"; PyStr "31-02-22"; PyStr "1-2-03"])
    by reflexivity.
  split; [auto|].
  destruct (one_error_record_per_cell Sim.lib local_csv_path
              preprocessed_csv_path (initial_state (machine_with dirty_frame))
              dirty_frame (machine_with dirty_frame) _ _ Hr Hj Hl)
    as (st' & r & Hrun & Hlog & Hr' & _).
  exists st', r. auto.
Defined.


(** A connection that gives no cursor: [main] raises and leaves the
    connection open. *)
Lemma cursor_failure_example :
  (os_makedirs lib_without_cursor local_csv_dir Sim.healthy
   = (Return tt, Sim.healthy)
   /\ pg_connect lib_without_cursor (db_config Sim.sample_globals) Sim.healthy
      = (Return tt, Sim.set_txn Sim.Idle (Sim.set_conn_open true Sim.healthy))
   /\ conn_cursor lib_without_cursor tt
        (Sim.set_txn Sim.Idle (Sim.set_conn_open true Sim.healthy))
      = (Raise (ExternalError "OperationalError"
                              "server closed the connection"),
         Sim.set_txn Sim.Idle (Sim.set_conn_open true Sim.healthy)))
  /\ exists st',
       main lib_without_cursor
            (Globals (L := lib_without_cursor) "bucket" tt
                     (db_config Sim.sample_globals))
            (initial_state Sim.healthy)
       = (Raise (ExternalError "OperationalError"
                               "server closed the connection"), st')
       /\ Sim.conn_open (world st') = true
       /\ calls st' = [Call_makedirs local_csv_dir;
                       Call_connect (db_config Sim.sample_globals);
                       Call_cursor].
Proof.
  set (g := Globals (L := lib_without_cursor) "bucket" tt
                    (db_config Sim.sample_globals)).
  assert (H1 : os_makedirs lib_without_cursor local_csv_dir Sim.healthy
               = (Return tt, Sim.healthy)) by reflexivity.
  assert (H2 : pg_connect lib_without_cursor (db_config g) Sim.healthy
               = (Return tt,
                  Sim.set_txn Sim.Idle (Sim.set_conn_open true Sim.healthy)))
    by reflexivity.
  assert (H3 : conn_cursor lib_without_cursor tt
                 (Sim.set_txn Sim.Idle (Sim.set_conn_open true Sim.healthy))
               = (Raise (ExternalError "OperationalError"
                                       "server closed the connection"),
                  Sim.set_txn Sim.Idle (Sim.set_conn_open true Sim.healthy)))
    by reflexivity.
  split; [auto|].
  destruct (cursor_failure_leaves_connection_open lib_without_cursor g
              (initial_state Sim.healthy) _ _ _ tt _ H1 H2 H3)
    as (st' & Hrun & Hw & _ & Hcalls & _).
  exists st'. split; [exact Hrun|]. split; [now rewrite Hw | exact Hcalls].
Defined.




